(** * Data validation with Voluptuous

    A shallow embedding of the notebook
    [validation-notebooks/01 - Data Validation with Voluptuous.ipynb]:
    three schemas (a float range on [sale_amount], a date format on
    [timestamp], a date sanity check on [timestamp]) and the loop that
    applies a schema to every row of the [sales] table, logging and counting
    the rows the schema rejects.

    The notebook's own code is a handful of lines; what it calls
    (Voluptuous, [datetime], [logging], the pandas row iteration) is modelled
    here as far as the notebook exercises it:

    - Python values as an inductive type, floats as binary64 primitive
      floats, a row as a finite map from column names to values;
    - exceptions and the mutable notebook state (the wall clock, the
      [error_count] variable, the emitted log records, the table) through a
      state-and-exception monad in which the state survives a raise;
    - [datetime.strptime] as a parameter of the development (a class with one
      method), so that every theorem holds for any parser; a reference
      parser for the numeric directives instantiates it for concrete runs. *)

From Stdlib Require Import ZArith List String Ascii Bool Lia.
From Stdlib Require Import Floats.PrimFloat Floats.SpecFloat Floats.FloatOps.
From stdpp Require Import gmap strings.

Local Open Scope string_scope.
Local Open Scope list_scope.

(* 1450.99 is read as the nearest binary64 value, as Python reads it. *)
Set Warnings "-inexact-float".

(* ===================================================================== *)
(** ** [datetime.datetime] (naive values only) *)
(* ===================================================================== *)

Module datetime.

Record t : Type := mk {
  year : Z; month : Z; day : Z;
  hour : Z; minute : Z; second : Z; microsecond : Z
}.

(** The tuple CPython compares: [(year, month, day, hour, minute, second,
    microsecond)]. *)
Definition _getstate (d : t) : list Z :=
  [year d; month d; day d; hour d; minute d; second d; microsecond d].

Fixpoint _cmp_tuple (x y : list Z) : comparison :=
  match x, y with
  | [], [] => Eq
  | [], _ :: _ => Lt
  | _ :: _, [] => Gt
  | a :: x', b :: y' =>
      match (a ?= b)%Z with
      | Eq => _cmp_tuple x' y'
      | c => c
      end
  end.

(** [datetime._cmp]: -1, 0 or 1. *)
Definition _cmp (a b : t) : comparison := _cmp_tuple (_getstate a) (_getstate b).

(** [__le__]: [self._cmp(other) <= 0]. *)
Definition le (a b : t) : bool :=
  match _cmp a b with Gt => false | _ => true end.

(** [__gt__]: [self._cmp(other) > 0]. *)
Definition gt (a b : t) : bool :=
  match _cmp a b with Gt => true | _ => false end.

End datetime.

(* ===================================================================== *)
(** ** Python values, exceptions, the notebook state *)
(* ===================================================================== *)

(** The scalar values a cell of the table can hold after
    [sales.T.to_dict()] (float, int, str, bool), plus [None] and [datetime],
    which the validators return. *)
Inductive pyval : Type :=
| PyNone
| PyBool (b : bool)
| PyInt (z : Z)
| PyFloat (f : float)
| PyStr (s : string)
| PyDatetime (d : datetime.t).

(** The classes that can stand as a schema ([float] in the notebook). *)
Inductive pytype : Type := Tfloat | Tint | Tstr | Tbool.

Definition __name__ (t : pytype) : string :=
  match t with
  | Tfloat => "float" | Tint => "int" | Tstr => "str" | Tbool => "bool"
  end.

(** [isinstance(v, t)]; [bool] is a subclass of [int]. *)
Definition isinstance (v : pyval) (t : pytype) : bool :=
  match t, v with
  | Tfloat, PyFloat _ => true
  | Tint, PyInt _ => true
  | Tint, PyBool _ => true
  | Tstr, PyStr _ => true
  | Tbool, PyBool _ => true
  | _, _ => false
  end.

(** A row of the table: [{column: value}]. *)
Abbreviation row := (gmap string pyval).

(** A message built with [template % arg] is kept as the pair it is built
    from; [render] below turns it into text for a given [str]. A literal
    message has no argument. *)
Record message : Type := Msg { template : string; operand : option pyval }.

Definition Lit (s : string) : message := Msg s None.
Definition Percent (s : string) (v : pyval) : message := Msg s (Some v).

(** Replace the first [%s] of [t] by [a]. *)
Fixpoint subst_s (t a : string) : string :=
  match t with
  | EmptyString => EmptyString
  | String c t' =>
      match t' with
      | String c' t'' =>
          if (Ascii.eqb c "%" && Ascii.eqb c' "s")%bool
          then String.append a t''
          else String c (subst_s t' a)
      | EmptyString => String c EmptyString
      end
  end.

Definition render (str : pyval -> string) (m : message) : string :=
  match operand m with
  | None => template m
  | Some v => subst_s (template m) (str v)
  end.

(** [voluptuous.error]: the classes of a single error. *)
Inductive invalid_class : Type :=
| cInvalid | cTypeInvalid | cValueInvalid | cRangeInvalid
| cRequiredFieldInvalid.

(** One [Invalid] instance: its class, [error_message], [path] and
    [error_type]. *)
Record Invalid : Type := mkInvalid {
  cls : invalid_class;
  error_message : message;
  path : list string;
  error_type : option string
}.

(** [Invalid.prepend(path)]. *)
Definition prepend (p : list string) (e : Invalid) : Invalid :=
  mkInvalid (cls e) (error_message e) (p ++ path e) (error_type e).

Inductive exn : Type :=
| ExInvalid (e : Invalid)
| MultipleInvalid (errors : list Invalid)
| ValueError
| TypeError
| KeyError (key : string)
| AssertionError.

(** [logging]: a record keeps the message and its arguments apart, as
    [LogRecord] does. *)
Inductive level : Type := DEBUG | INFO | WARNING | ERROR | CRITICAL.

Inductive pyobj : Type :=
| ObjVal (v : pyval)
| ObjExn (e : exn).

Record LogRecord : Type := mkLogRecord {
  levelname : level;
  msg : string;
  args : list pyobj
}.

(** What the notebook's cells read and write: the wall clock (its
    successive readings and how many have been taken), the [sales] table,
    the [error_count] variable and the log records emitted so far. *)
Record state : Type := mkState {
  clock : nat -> datetime.t;
  tick : nat;
  sales : list row;
  error_count : Z;
  records : list LogRecord
}.

Definition set_tick (n : nat) (st : state) : state :=
  mkState (clock st) n (sales st) (error_count st) (records st).

Definition set_error_count (z : Z) (st : state) : state :=
  mkState (clock st) (tick st) (sales st) z (records st).

Definition add_record (r : LogRecord) (st : state) : state :=
  mkState (clock st) (tick st) (sales st) (error_count st) (records st ++ [r]).

(* ===================================================================== *)
(** ** The monad: state that survives an exception *)
(* ===================================================================== *)

Inductive outcome (A : Type) : Type :=
| Return (a : A)
| Raise (e : exn).
Arguments Return {A} a.
Arguments Raise {A} e.

Definition M (A : Type) : Type := state -> outcome A * state.

Definition ret {A} (a : A) : M A := fun st => (Return a, st).

Definition raise {A} (e : exn) : M A := fun st => (Raise e, st).

Definition bind {A B} (c : M A) (k : A -> M B) : M B :=
  fun st =>
    match c st with
    | (Return a, st') => k a st'
    | (Raise e, st') => (Raise e, st')
    end.

(** [try: c  except ... as e: h e]; the handler re-raises what its
    [except] clauses do not name. *)
Definition try_except {A} (c : M A) (h : exn -> M A) : M A :=
  fun st =>
    match c st with
    | (Return a, st') => (Return a, st')
    | (Raise e, st') => h e st'
    end.

(** Reading a component of the state, changing the state. *)
Definition gets {A} (f : state -> A) : M A := fun st => (Return (f st), st).

Definition modify (f : state -> state) : M unit := fun st => (Return tt, f st).

Declare Scope py_scope.
Delimit Scope py_scope with py.
Notation "x <- c ;; k" := (bind c (fun x => k))
  (at level 100, c at next level, right associativity) : py_scope.
Notation "c ;; k" := (bind c (fun _ => k))
  (at level 100, right associativity) : py_scope.
Local Open Scope py_scope.

(** [for x in l: body x]. *)
Fixpoint for_in {A} (l : list A) (body : A -> M unit) : M unit :=
  match l with
  | [] => ret tt
  | x :: l' => body x ;; for_in l' body
  end.

(** [assert b]. *)
Definition assert_ (b : bool) : M unit :=
  if b then ret tt else raise AssertionError.

(** [d[k]] on a dict. *)
Definition getitem (d : row) (k : string) : M pyval :=
  match d !! k with
  | Some v => ret v
  | None => raise (KeyError k)
  end.

(** [datetime.now()]: the next reading of the wall clock. *)
Definition datetime_now : M datetime.t :=
  now <- gets (fun st => clock st (tick st)) ;;
  modify (fun st => set_tick (S (tick st)) st) ;;
  ret now.

(** [logging.warning(msg, *args)] on the root logger, whose level the
    notebook sets to [WARNING]: the record is emitted. *)
Definition logging_warning (m : string) (a : list pyobj) : M unit :=
  modify (add_record (mkLogRecord WARNING m a)).

(** [datetime.strptime] on strings is the one library function left
    abstract: [None] stands for its [ValueError]. *)
Class Strptime : Type := _strptime : string -> string -> option datetime.t.

(** [datetime.strptime(v, fmt)]: a [TypeError] unless [v] is a [str]. *)
Definition strptime `{Strptime} (v : pyval) (fmt : string) : M datetime.t :=
  match v with
  | PyStr s =>
      match _strptime s fmt with
      | Some d => ret d
      | None => raise ValueError
      end
  | _ => raise TypeError
  end.

(* ===================================================================== *)
(** ** Ordering a Python number against a float *)
(* ===================================================================== *)

(** Python compares an [int] with a [float] exactly, not by converting the
    [int]: [None] when the float is a NaN. *)
Definition Z_compare_float (z : Z) (x : float) : option comparison :=
  match Prim2SF x with
  | S754_nan => None
  | S754_zero _ => Some (z ?= 0)%Z
  | S754_infinity neg => Some (if neg then Gt else Lt)
  | S754_finite neg m e =>
      let sm := if neg then Z.neg m else Z.pos m in
      Some (if (0 <=? e)%Z
            then (z ?= sm * 2 ^ e)%Z
            else (z * 2 ^ (- e) ?= sm)%Z)
  end.

Definition as_int (v : pyval) : option Z :=
  match v with
  | PyInt z => Some z
  | PyBool b => Some (Z.b2z b)
  | _ => None
  end.

(** [v >= x], [v > x], [v <= x], [v < x] for a float [x]; a [TypeError]
    when [v] is not a number. On two floats these are the IEEE comparisons,
    false on a NaN. *)
Definition py_ge (v : pyval) (x : float) : M bool :=
  match v, as_int v with
  | PyFloat f, _ => ret (PrimFloat.leb x f)
  | _, Some z =>
      ret (match Z_compare_float z x with Some Gt | Some Eq => true | _ => false end)
  | _, None => raise TypeError
  end.

Definition py_gt (v : pyval) (x : float) : M bool :=
  match v, as_int v with
  | PyFloat f, _ => ret (PrimFloat.ltb x f)
  | _, Some z =>
      ret (match Z_compare_float z x with Some Gt => true | _ => false end)
  | _, None => raise TypeError
  end.

Definition py_le (v : pyval) (x : float) : M bool :=
  match v, as_int v with
  | PyFloat f, _ => ret (PrimFloat.leb f x)
  | _, Some z =>
      ret (match Z_compare_float z x with Some Lt | Some Eq => true | _ => false end)
  | _, None => raise TypeError
  end.

Definition py_lt (v : pyval) (x : float) : M bool :=
  match v, as_int v with
  | PyFloat f, _ => ret (PrimFloat.ltb f x)
  | _, Some z =>
      ret (match Z_compare_float z x with Some Lt => true | _ => false end)
  | _, None => raise TypeError
  end.

(* ===================================================================== *)
(** ** Voluptuous, as far as the notebook uses it *)
(* ===================================================================== *)

(** A compiled schema: [validate(path, data)] returns the validated value
    or raises. *)
Definition validator : Type := list string -> pyval -> M pyval.

(** A class as a schema: an [isinstance] test, no conversion. *)
Definition validate_instance (t : pytype) : validator :=
  fun p data =>
    if isinstance data t then ret data
    else raise (ExInvalid
                  (mkInvalid cTypeInvalid (Percent "expected %s" (PyStr (__name__ t))) p None)).

(** A callable as a schema: its [ValueError] becomes [ValueInvalid], its
    [Invalid] gets the path prepended, anything else passes through. *)
Definition validate_callable (f : pyval -> M pyval) : validator :=
  fun p data =>
    try_except (f data)
      (fun e =>
         match e with
         | ValueError =>
             raise (ExInvalid (mkInvalid cValueInvalid (Lit "not a valid value") p None))
         | ExInvalid e' => raise (ExInvalid (prepend p e'))
         | MultipleInvalid es => raise (MultipleInvalid (map (prepend p) es))
         | _ => raise e
         end).

(** [Range(min=..., max=..., min_included=True, max_included=True)]. *)
Record Range : Type := mkRange {
  min : option float;
  max : option float;
  min_included : bool;
  max_included : bool
}.

Definition RangeInvalid (t : string) (bound : float) : exn :=
  ExInvalid (mkInvalid cRangeInvalid (Percent t (PyFloat bound)) [] None).

(** [Range.__call__]. *)
Definition Range_call (r : Range) (v : pyval) : M pyval :=
  match min r with
  | Some lo =>
      if min_included r
      then ok <- py_ge v lo ;;
           if ok then ret tt else raise (RangeInvalid "value must be at least %s" lo)
      else ok <- py_gt v lo ;;
           if ok then ret tt else raise (RangeInvalid "value must be higher than %s" lo)
  | None => ret tt
  end ;;
  match max r with
  | Some hi =>
      if max_included r
      then ok <- py_le v hi ;;
           if ok then ret tt else raise (RangeInvalid "value must be at most %s" hi)
      else ok <- py_lt v hi ;;
           if ok then ret tt else raise (RangeInvalid "value must be lower than %s" hi)
  | None => ret tt
  end ;;
  ret v.

(** [All(v1, v2, ...)] without [msg]: each validator in turn, on the value
    the previous one returned; the first error is raised as it is. *)
Fixpoint All (validators : list validator) : validator :=
  fun p v =>
    match validators with
    | [] => ret v
    | f :: fs => v' <- f p v ;; All fs p v'
    end.

Inductive extra_mode : Type := PREVENT_EXTRA | ALLOW_EXTRA | REMOVE_EXTRA.

(** [Schema({Required(key): value}, extra=...)]: a dict schema with one
    required key, the only form the notebook builds. *)
Record Schema : Type := mkSchema {
  required : string;
  value : validator;
  extra : extra_mode
}.

(** The errors for the keys of [data] the schema does not name. *)
Definition extra_errors (s : Schema) (data : row) : list Invalid :=
  match extra s with
  | PREVENT_EXTRA =>
      map (fun kv => mkInvalid cInvalid (Lit "extra keys not allowed") [fst kv] None)
          (map_to_list (delete (required s) data))
  | _ => []
  end.

(** The validated dict when the required key validates to [cval]. *)
Definition output (s : Schema) (data : row) (cval : pyval) : row :=
  match extra s with
  | REMOVE_EXTRA => {[ required s := cval ]}
  | _ => <[ required s := cval ]> data
  end.

(** An error no deeper than the key gets [error_type = 'dictionary value']. *)
Definition mark_value (key_path : list string) (e : Invalid) : Invalid :=
  if (length (path e) <=? length key_path)%nat
  then mkInvalid (cls e) (error_message e) (path e) (Some "dictionary value")
  else e.

Definition raise_if_errors {A} (errors : list Invalid) (a : A) : M A :=
  match errors with
  | [] => ret a
  | _ :: _ => raise (MultipleInvalid errors)
  end.

(** [schema(data)] on a dict. Errors of class [Invalid] are collected and
    raised together as [MultipleInvalid]; any other exception of the value
    validator leaves the call as it is. *)
Definition Schema_call (s : Schema) (data : row) : M row :=
  let key_path := [required s] in
  match data !! required s with
  | Some v =>
      r <- try_except
             (cval <- value s key_path v ;; ret (inl cval))
             (fun e =>
                match e with
                | ExInvalid e' => ret (inr [e'])
                | MultipleInvalid es => ret (inr es)
                | _ => raise e
                end) ;;
      match r with
      | inl cval => raise_if_errors (extra_errors s data) (output s data cval)
      | inr es =>
          raise (MultipleInvalid (map (mark_value key_path) es ++ extra_errors s data))
      end
  | None =>
      raise (MultipleInvalid
               (extra_errors s data ++
                [mkInvalid cRequiredFieldInvalid (Lit "required key not provided")
                           key_path None]))
  end.

(* ===================================================================== *)
(** ** The notebook *)
(* ===================================================================== *)

(** [sales.T.to_dict().items()]: the rows of the table keyed by their
    position, the index [pd.read_csv] gives. *)
Definition items (df : list row) : list (Z * row) :=
  imap (fun i r => (Z.of_nat i, r)) df.

(** The body of the three [for s_id, sale in ...] loops, which differ in
    the schema in force and in the column they log:
<<
    try:
        schema(sale)
    except MultipleInvalid as e:
        logging.warning('issue with sale: %s (%s) - %s', s_id, sale[field], e)
        error_count += 1
>> *)
Definition check_sale (schema : Schema) (field : string) (item : Z * row) : M unit :=
  let '(s_id, sale) := item in
  try_except
    (_ <- Schema_call schema sale ;; ret tt)
    (fun e =>
       match e with
       | MultipleInvalid _ =>
           v <- getitem sale field ;;
           logging_warning "issue with sale: %s (%s) - %s"
                           [ObjVal (PyInt s_id); ObjVal v; ObjExn e] ;;
           modify (fun st => set_error_count (error_count st + 1) st)
       | _ => raise e
       end).

(** A whole cell: [error_count = 0], then the loop over the table. *)
Definition count_errors (schema : Schema) (field : string) : M unit :=
  modify (set_error_count 0) ;;
  df <- gets sales ;;
  for_in (items df) (check_sale schema field).

(** The default of [ValidDate]'s [fmt] argument. *)
Definition default_fmt : string := "%Y-%m-%dT%H:%M:%S".

(** *** Defining our first schema *)
Module SaleAmount.

Definition schema : Schema :=
  mkSchema "sale_amount"
           (All [validate_instance Tfloat;
                 validate_callable
                   (Range_call (mkRange (Some 2.50%float) (Some 1450.99%float) true true))])
           ALLOW_EXTRA.

Definition cell : M unit := count_errors schema "sale_amount".

End SaleAmount.

(** *** Adding a custom validation case: the date format *)
Module DateFormat.
Section WithStrptime.
Context `{Strptime}.

(** [lambda v: datetime.strptime(v, fmt)]. *)
Definition ValidDate (fmt : string) : pyval -> M pyval :=
  fun v => d <- strptime v fmt ;; ret (PyDatetime d).

Definition schema : Schema :=
  mkSchema "timestamp" (All [validate_callable (ValidDate default_fmt)]) ALLOW_EXTRA.

Definition cell : M unit := count_errors schema "timestamp".

End WithStrptime.
End DateFormat.

(** *** Valid date structures, what about actual valid dates? *)
Module DateSanity.
Section WithStrptime.
Context `{Strptime}.

(**
<<
    def validation_func(v):
        try:
            assert datetime.strptime(v, fmt) <= datetime.now()
        except AssertionError:
            raise Invalid('date is in the future! %s' % v)
>>
    The function has no [return]: a valid date validates to [None]. *)
Definition validation_func (fmt : string) (v : pyval) : M pyval :=
  try_except
    (d <- strptime v fmt ;;
     now <- datetime_now ;;
     assert_ (datetime.le d now) ;;
     ret PyNone)
    (fun e =>
       match e with
       | AssertionError =>
           raise (ExInvalid
                    (mkInvalid cInvalid (Percent "date is in the future! %s" v) [] None))
       | _ => raise e
       end).

Definition ValidDate (fmt : string) : pyval -> M pyval := validation_func fmt.

Definition schema : Schema :=
  mkSchema "timestamp" (All [validate_callable (ValidDate default_fmt)]) ALLOW_EXTRA.

Definition cell : M unit := count_errors schema "timestamp".

End WithStrptime.
End DateSanity.

(** The three checks the notebook runs: a schema and the column its loop
    logs. *)
Definition notebook_checks `{Strptime} : list (Schema * string) :=
  [ (SaleAmount.schema, "sale_amount");
    (DateFormat.schema, "timestamp");
    (DateSanity.schema, "timestamp") ].

(* ===================================================================== *)
(** ** A reference parser for [datetime.strptime] *)
(* ===================================================================== *)

(** CPython turns the format into a regular expression, matches it at the
    start of the string, rejects what is left over and builds the
    [datetime] from the groups. This parser does the same for formats made
    of the directives [%Y %m %d %H %M %S], [%%] and literal characters other
    than white space, on ASCII digits; it rejects every other format. It
    instantiates [Strptime] for the concrete runs below; the theorems are
    stated for every parser. *)
Module RefParser.

Inductive directive : Type := dY | dm | dd | dH | dM | dS.

Inductive token : Type :=
| Dir (d : directive)
| Chr (c : ascii).

Definition directive_of (c : ascii) : option directive :=
  if Ascii.eqb c "Y" then Some dY
  else if Ascii.eqb c "m" then Some dm
  else if Ascii.eqb c "d" then Some dd
  else if Ascii.eqb c "H" then Some dH
  else if Ascii.eqb c "M" then Some dM
  else if Ascii.eqb c "S" then Some dS
  else None.

Definition is_space (c : ascii) : bool :=
  let n := nat_of_ascii c in
  ((n =? 32) || ((9 <=? n) && (n <=? 13)))%nat.

(** [after_percent] tells that the character before was a [%]. *)
Fixpoint tokenize (after_percent : bool) (fmt : string) : option (list token) :=
  match fmt with
  | EmptyString => if after_percent then None else Some []
  | String c rest =>
      if after_percent then
        let tok :=
          if Ascii.eqb c "%" then Some (Chr "%")
          else option_map Dir (directive_of c) in
        match tok, tokenize false rest with
        | Some t, Some ts => Some (t :: ts)
        | _, _ => None
        end
      else if Ascii.eqb c "%" then tokenize true rest
      else if is_space c then None
      else option_map (cons (Chr c)) (tokenize false rest)
  end.

Fixpoint count_dir (d : directive) (ts : list token) : nat :=
  match ts with
  | [] => 0
  | Dir d' :: ts' =>
      (match d, d' with
       | dY, dY | dm, dm | dd, dd | dH, dH | dM, dM | dS, dS => 1
       | _, _ => 0
       end + count_dir d ts')%nat
  | Chr _ :: ts' => count_dir d ts'
  end.

(** A directive may appear once: it names a group of the expression. *)
Definition well_formed (ts : list token) : bool :=
  forallb (fun d => (count_dir d ts <=? 1)%nat) [dY; dm; dd; dH; dM; dS].

Definition digit (c : ascii) : option Z :=
  let n := nat_of_ascii c in
  if ((48 <=? n) && (n <=? 57))%nat then Some (Z.of_nat n - 48)%Z else None.

(** The expression is compiled with [IGNORECASE]. *)
Definition lower (c : ascii) : ascii :=
  let n := nat_of_ascii c in
  if ((65 <=? n) && (n <=? 90))%nat then ascii_of_nat (n + 32) else c.

Definition eqb_nocase (a b : ascii) : bool := Ascii.eqb (lower a) (lower b).

(** The groups matched so far. *)
Record groups : Type := mkGroups {
  gY : option Z; gm : option Z; gd : option Z;
  gH : option Z; gM : option Z; gS : option Z
}.

Definition no_groups : groups := mkGroups None None None None None None.

Definition set_group (d : directive) (v : Z) (g : groups) : groups :=
  match d with
  | dY => mkGroups (Some v) (gm g) (gd g) (gH g) (gM g) (gS g)
  | dm => mkGroups (gY g) (Some v) (gd g) (gH g) (gM g) (gS g)
  | dd => mkGroups (gY g) (gm g) (Some v) (gH g) (gM g) (gS g)
  | dH => mkGroups (gY g) (gm g) (gd g) (Some v) (gM g) (gS g)
  | dM => mkGroups (gY g) (gm g) (gd g) (gH g) (Some v) (gS g)
  | dS => mkGroups (gY g) (gm g) (gd g) (gH g) (gM g) (Some v)
  end.

(** The two-character alternatives of a directive, as a test on the number
    they spell: [%m] is [1[0-2]|0[1-9]], [%d] is [3[0-1]|[1-2]\d|0[1-9]],
    [%H] is [2[0-3]|[0-1]\d], [%M] is [[0-5]\d], [%S] is [6[0-1]|[0-5]\d]. *)
Definition two_digits (d : directive) (v : Z) : bool :=
  match d with
  | dY => false
  | dm => (1 <=? v)%Z && (v <=? 12)%Z
  | dd => (1 <=? v)%Z && (v <=? 31)%Z
  | dH => (v <=? 23)%Z
  | dM => (v <=? 59)%Z
  | dS => (v <=? 61)%Z
  end.

(** The one-character alternative: [[1-9]] for [%m] and [%d], [\d] for the
    others. *)
Definition one_digit (d : directive) (v : Z) : bool :=
  match d with
  | dY => false
  | dm | dd => (1 <=? v)%Z
  | _ => true
  end.

(** The ways a directive can match at the start of [s], in the order of
    its alternatives: the number read and what is left. *)
Definition alternatives (d : directive) (s : string) : list (Z * string) :=
  match d, s with
  | dY, String a (String b (String c (String e rest))) =>
      match digit a, digit b, digit c, digit e with
      | Some x, Some y, Some z, Some w => [((x * 1000 + y * 100 + z * 10 + w)%Z, rest)]
      | _, _, _, _ => []
      end
  | dY, _ => []
  | _, String a rest =>
      let two :=
        match digit a, rest with
        | Some x, String b rest' =>
            match digit b with
            | Some y => if two_digits d (x * 10 + y)%Z then [((x * 10 + y)%Z, rest')] else []
            | None => []
            end
        | _, _ => []
        end in
      let one :=
        match digit a with
        | Some x => if one_digit d x then [(x, rest)] else []
        | None => []
        end in
      let blank :=
        match d, rest with
        | dd, String b rest' =>
            match digit b with
            | Some y => if Ascii.eqb a " " && (1 <=? y)%Z then [(y, rest')] else []
            | None => []
            end
        | _, _ => []
        end in
      two ++ one ++ blank
  | _, EmptyString => []
  end.

(** The first match of the expression at the start of [s], with
    backtracking over the alternatives. *)
Fixpoint match_tokens (ts : list token) (s : string) (g : groups)
  : option (groups * string) :=
  match ts with
  | [] => Some (g, s)
  | Chr c :: ts' =>
      match s with
      | String c' s' => if eqb_nocase c c' then match_tokens ts' s' g else None
      | EmptyString => None
      end
  | Dir d :: ts' =>
      fold_right
        (fun alt other =>
           match match_tokens ts' (snd alt) (set_group d (fst alt) g) with
           | Some r => Some r
           | None => other
           end)
        None (alternatives d s)
  end.

Definition is_leap (y : Z) : bool :=
  ((y mod 4 =? 0) && (negb (y mod 100 =? 0) || (y mod 400 =? 0)))%Z.

Definition days_in_month (y m : Z) : Z :=
  if (m =? 2)%Z then (if is_leap y then 29 else 28)%Z
  else if ((m =? 4) || (m =? 6) || (m =? 9) || (m =? 11))%Z then 30%Z
  else 31%Z.

(** The constructor's range checks; a missing group takes its default
    (1900-01-01 00:00:00). *)
Definition build (g : groups) : option datetime.t :=
  let y := default 1900%Z (gY g) in
  let m := default 1%Z (gm g) in
  let d := default 1%Z (gd g) in
  let h := default 0%Z (gH g) in
  let mi := default 0%Z (gM g) in
  let sec := default 0%Z (gS g) in
  if ((1 <=? y) && (d <=? days_in_month y m) && (sec <=? 59))%Z
  then Some (datetime.mk y m d h mi sec 0)
  else None.

Definition parse (data_string format : string) : option datetime.t :=
  match tokenize false format with
  | Some ts =>
      if well_formed ts then
        match match_tokens ts data_string no_groups with
        | Some (g, EmptyString) => build g
        | _ => None
        end
      else None
  | None => None
  end.

End RefParser.

Definition ref_strptime : Strptime := RefParser.parse.

(* ===================================================================== *)
(** ** Notions the statements use *)
(* ===================================================================== *)

(** A float lies in the inclusive interval [[2.50, 1450.99]], the bounds
    being the binary64 values of the two literals. *)
Definition in_interval (f : float) : bool :=
  PrimFloat.leb 2.50%float f && PrimFloat.leb f 1450.99%float.

(** A value the [sale_amount] rule accepts: a float in the interval. *)
Definition satisfies_range_rule (v : pyval) : bool :=
  match v with
  | PyFloat f => in_interval f
  | _ => false
  end.

(** A row that has a [sale_amount] value the rule rejects. *)
Definition violates_range_rule (sale : row) : bool :=
  match sale !! "sale_amount" with
  | Some v => negb (satisfies_range_rule v)
  | None => false
  end.

(** The two shapes of error the notebook's schemas produce: the required
    key is missing, or its value is rejected. *)
Definition missing (key : string) : Invalid :=
  mkInvalid cRequiredFieldInvalid (Lit "required key not provided") [key] None.

Definition at_key (key : string) (c : invalid_class) (m : message) : Invalid :=
  mkInvalid c m [key] (Some "dictionary value").

(** The record the loop logs for row [s_id], value [v], exception [e]. *)
Definition issue (s_id : Z) (v : pyval) (e : exn) : LogRecord :=
  mkLogRecord WARNING "issue with sale: %s (%s) - %s"
              [ObjVal (PyInt s_id); ObjVal v; ObjExn e].

(** The state after a counted failure: one more record, one more error. *)
Definition counted (r : LogRecord) (st : state) : state :=
  set_error_count (error_count st + 1) (add_record r st).

(** A state with nothing in it but a clock that reads [now]. *)
Definition blank (now : datetime.t) : state :=
  mkState (fun _ => now) 0 [] 0 [].

(** What a schema says of a row when the clock reads [now], and how many
    times it then reads the clock: by construction functions of the row
    and of [now] alone. *)
Definition verdict (s : Schema) (sale : row) (now : datetime.t) : outcome row :=
  fst (Schema_call s sale (blank now)).

Definition reads (s : Schema) (sale : row) (now : datetime.t) : nat :=
  tick (snd (Schema_call s sale (blank now))).

(** A row the loop for [field] can check: it has the field, and as a
    string when the field is the timestamp. *)
Definition checkable (field : string) (sale : row) : bool :=
  match sale !! field with
  | Some (PyStr _) => true
  | Some _ => negb (String.eqb field "timestamp")
  | None => false
  end.

Definition set_clock (c : nat -> datetime.t) (st : state) : state :=
  mkState c (tick st) (sales st) (error_count st) (records st).

(** The records a run over [l] is expected to add when the clock has been
    read [t] times: one per row whose verdict is a [MultipleInvalid], in the
    order of the rows. *)
Fixpoint expected_records (s : Schema) (field : string) (c : nat -> datetime.t)
         (t : nat) (l : list (Z * row)) : list LogRecord :=
  match l with
  | [] => []
  | (s_id, sale) :: l' =>
      match verdict s sale (c t), sale !! field with
      | Raise (MultipleInvalid es), Some v => [issue s_id v (MultipleInvalid es)]
      | _, _ => []
      end ++ expected_records s field c (t + reads s sale (c t)) l'
  end.

(** The clock has been read this many times after a run over [l]. *)
Fixpoint expected_tick (s : Schema) (c : nat -> datetime.t) (t : nat)
         (l : list (Z * row)) : nat :=
  match l with
  | [] => t
  | (_, sale) :: l' => expected_tick s c (t + reads s sale (c t)) l'
  end.

(** The state a run over [l] ends in when every row is checkable. *)
Definition after_run (s : Schema) (field : string) (l : list (Z * row)) (st : state)
  : state :=
  let added := expected_records s field (clock st) (tick st) l in
  mkState (clock st) (expected_tick s (clock st) (tick st) l) (sales st)
          (error_count st + Z.of_nat (length added)) (records st ++ added).

(** The values the [datetime] constructor accepts: year 1 to 9999, a day
    of that month, a time of day, microseconds below a million. *)
Definition valid_datetime (d : datetime.t) : bool :=
  ((1 <=? datetime.year d) && (datetime.year d <=? 9999)
   && (1 <=? datetime.month d) && (datetime.month d <=? 12)
   && (1 <=? datetime.day d)
   && (datetime.day d <=? RefParser.days_in_month (datetime.year d) (datetime.month d))
   && (0 <=? datetime.hour d) && (datetime.hour d <=? 23)
   && (0 <=? datetime.minute d) && (datetime.minute d <=? 59)
   && (0 <=? datetime.second d) && (datetime.second d <=? 59)
   && (0 <=? datetime.microsecond d) && (datetime.microsecond d <=? 999999))%Z.

(** [datetime.min]: 0001-01-01 00:00:00. *)
Definition datetime_min : datetime.t := datetime.mk 1 1 1 0 0 0 0.

(* ===================================================================== *)
(** ** Notions for the properties of whole runs *)
(* ===================================================================== *)

(** The date a row's [timestamp] parses to under the default format, when
    it is a string that parses. *)
Definition parsed `{Strptime} (sale : row) : option datetime.t :=
  match sale !! "timestamp" with
  | Some (PyStr s) => _strptime s default_fmt
  | _ => None
  end.

(** The row's [timestamp] is a string that does not parse. *)
Definition unparsable `{Strptime} (sale : row) : bool :=
  match sale !! "timestamp" with
  | Some (PyStr s) =>
      match _strptime s default_fmt with
      | Some _ => false
      | None => true
      end
  | _ => false
  end.

(** The row's [timestamp] parses to a date strictly after [now]. *)
Definition future `{Strptime} (now : datetime.t) (sale : row) : bool :=
  match parsed sale with
  | Some d => datetime.gt d now
  | None => false
  end.

Definition count_rows (p : row -> bool) (t : list row) : Z :=
  Z.of_nat (length (List.filter p t)).

(** What a run over [l] comes to on any table, when the clock [c] has been
    read [t] times: how it ends, how many times the clock has been read
    then, and the records it added. A row whose verdict is a
    [MultipleInvalid] is logged if it holds the logged field and ends the
    run with a [KeyError] if not; any other exception ends the run. *)
Fixpoint trace (s : Schema) (field : string) (c : nat -> datetime.t) (t : nat)
         (l : list (Z * row)) : outcome unit * nat * list LogRecord :=
  match l with
  | [] => (Return tt, t, [])
  | (s_id, sale) :: l' =>
      let t' := (t + reads s sale (c t))%nat in
      match verdict s sale (c t) with
      | Return _ => trace s field c t' l'
      | Raise (MultipleInvalid es) =>
          match sale !! field with
          | Some v =>
              let '(o, t'', recs) := trace s field c t' l' in
              (o, t'', issue s_id v (MultipleInvalid es) :: recs)
          | None => (Raise (KeyError field), t', [])
          end
      | Raise e => (Raise e, t', [])
      end
  end.

(** A schema whose verdict does not depend on the time and that never
    reads the clock. *)
Definition timeless (s : Schema) : Prop :=
  forall sale now now',
    verdict s sale now = verdict s sale now' /\ reads s sale now = 0%nat.

(** The state with another table in [sales]. *)
Definition set_sales (t : list row) (st : state) : state :=
  mkState (clock st) (tick st) t (error_count st) (records st).

(** The row id a record was logged for: its first argument. *)
Definition s_id_of (r : LogRecord) : option Z :=
  match args r with
  | ObjVal (PyInt i) :: _ => Some i
  | _ => None
  end.

(* ===================================================================== *)
(** ** Sample data *)
(* ===================================================================== *)

Definition at_ (y m d h mi s : Z) : datetime.t := datetime.mk y m d h mi s 0.

Definition noon : datetime.t := at_ 2017 6 1 12 0 0.

Definition sale_row (amount ts : pyval) : row :=
  {[ "sale_amount" := amount; "timestamp" := ts ]}.

Definition initial (c : nat -> datetime.t) (t : list row) : state :=
  mkState c 0 t 0 [].

Definition sample : list row :=
  [ sale_row (PyFloat 500) (PyStr "2017-01-01T00:00:00");
    sale_row (PyFloat 1) (PyStr "2099-01-01T00:00:00");
    sale_row (PyFloat 1450.99) (PyStr "yesterday");
    sale_row (PyInt 3) (PyStr "2017-06-01T12:00:00");
    sale_row (PyFloat nan) (PyStr "2017-06-01T12:00:01") ].

(** A clock that reads one second before noon, then noon. *)
Definition ticking (n : nat) : datetime.t :=
  match n with
  | O => at_ 2017 6 1 11 59 59
  | S _ => noon
  end.

(* ===================================================================== *)
(** ** Concrete runs *)
(* ===================================================================== *)

Example parse_iso :
  RefParser.parse "2017-03-05T14:07:09" default_fmt = Some (at_ 2017 3 5 14 7 9).
Proof. vm_compute. reflexivity. Qed.

Example parse_short_fields :
  RefParser.parse "2017-3-5t4:7:9" default_fmt = Some (at_ 2017 3 5 4 7 9).
Proof. vm_compute. reflexivity. Qed.

Example parse_bad_day : RefParser.parse "2017-02-30T00:00:00" default_fmt = None.
Proof. vm_compute. reflexivity. Qed.

Example parse_leftover : RefParser.parse "2017-03-05T14:07:09Z" default_fmt = None.
Proof. vm_compute. reflexivity. Qed.

Example parse_not_a_date : RefParser.parse "yesterday" default_fmt = None.
Proof. vm_compute. reflexivity. Qed.

Example parse_backtracks : RefParser.parse "12" "%H%M" = Some (at_ 1900 1 1 1 2 0).
Proof. vm_compute. reflexivity. Qed.

Example interval_bounds_included :
  in_interval 2.50 = true /\ in_interval 1450.99 = true /\ in_interval 500 = true.
Proof. vm_compute. repeat split; reflexivity. Qed.

Example interval_outside :
  in_interval 1 = false /\ in_interval 1451 = false /\ in_interval (-3) = false /\
  in_interval nan = false /\ in_interval infinity = false.
Proof. vm_compute. repeat split; reflexivity. Qed.

Example sample_sale_amount_count :
  let r := SaleAmount.cell (initial (fun _ => noon) sample) in
  fst r = Return tt /\ error_count (snd r) = 3%Z.
Proof. vm_compute. split; reflexivity. Qed.

Example sample_format_count :
  let r := @DateFormat.cell ref_strptime (initial (fun _ => noon) sample) in
  fst r = Return tt /\ error_count (snd r) = 1%Z.
Proof. vm_compute. split; reflexivity. Qed.

Example sample_sanity_count :
  let r := @DateSanity.cell ref_strptime (initial (fun _ => noon) sample) in
  fst r = Return tt /\ error_count (snd r) = 3%Z /\ tick (snd r) = 4%nat.
Proof. vm_compute. repeat split; reflexivity. Qed.

(** With [PREVENT_EXTRA] the other column of the row is an error. *)
Example prevent_extra_rejects :
  fst (Schema_call (mkSchema "sale_amount" (value SaleAmount.schema) PREVENT_EXTRA)
                   (sale_row (PyFloat 500) (PyStr "2017-01-01T00:00:00"))
                   (blank noon))
  = Raise (MultipleInvalid
             [mkInvalid cInvalid (Lit "extra keys not allowed") ["timestamp"] None]).
Proof. vm_compute. reflexivity. Qed.

(* ===================================================================== *)
(** ** The monad's equations *)
(* ===================================================================== *)

Lemma count_errors_run s field st :
  count_errors s field st =
  for_in (items (sales st)) (check_sale s field) (set_error_count 0 st).
Proof. reflexivity. Qed.

Lemma for_in_cons {A} (x : A) l body st :
  for_in (x :: l) body st =
  match body x st with
  | (Return _, st') => for_in l body st'
  | (Raise e, st') => (Raise e, st')
  end.
Proof. reflexivity. Qed.

Lemma for_in_app {A} (l1 l2 : list A) body st st1 :
  for_in l1 body st = (Return tt, st1) ->
  for_in (l1 ++ l2) body st = for_in l2 body st1.
Proof.
  revert st. induction l1 as [|x l1 IH]; intros st E; simpl app.
  - cbn in E. now inversion E.
  - rewrite for_in_cons in *. destruct (body x st) as [[[]|e] st'].
    + now apply IH.
    + discriminate.
Qed.

(* ===================================================================== *)
(** ** One iteration of the loop, by the schema's outcome *)
(* ===================================================================== *)

Lemma check_sale_pass s field s_id sale st out st' :
  Schema_call s sale st = (Return out, st') ->
  check_sale s field (s_id, sale) st = (Return tt, st').
Proof.
  intros E. unfold check_sale, try_except, bind. now rewrite E.
Qed.

Lemma check_sale_fail s field s_id sale v st es st' :
  Schema_call s sale st = (Raise (MultipleInvalid es), st') ->
  sale !! field = Some v ->
  check_sale s field (s_id, sale) st =
  (Return tt, counted (issue s_id v (MultipleInvalid es)) st').
Proof.
  intros E Hv. unfold check_sale, try_except, bind, getitem.
  rewrite E, Hv. reflexivity.
Qed.

Lemma check_sale_fail_no_field s field s_id sale st es st' :
  Schema_call s sale st = (Raise (MultipleInvalid es), st') ->
  sale !! field = None ->
  check_sale s field (s_id, sale) st = (Raise (KeyError field), st').
Proof.
  intros E Hv. unfold check_sale, try_except, bind, getitem.
  rewrite E, Hv. reflexivity.
Qed.

Lemma check_sale_other s field s_id sale st e st' :
  Schema_call s sale st = (Raise e, st') ->
  (forall es, e <> MultipleInvalid es) ->
  check_sale s field (s_id, sale) st = (Raise e, st').
Proof.
  intros E Hne. unfold check_sale, try_except, bind.
  rewrite E. destruct e; try reflexivity. now destruct (Hne errors).
Qed.

(** An iteration that raises ends the loop: the rows behind it are not
    reached. *)
Lemma for_in_stops {A} (x : A) l body st e st' :
  body x st = (Raise e, st') -> for_in (x :: l) body st = (Raise e, st').
Proof. intros E. now rewrite for_in_cons, E. Qed.

Lemma run_stops_without_field s field s_id sale st es st' rest :
  Schema_call s sale st = (Raise (MultipleInvalid es), st') ->
  sale !! field = None ->
  for_in ((s_id, sale) :: rest) (check_sale s field) st = (Raise (KeyError field), st').
Proof.
  intros E Hv. apply for_in_stops. now apply check_sale_fail_no_field with es.
Qed.

Lemma run_stops_on_other_exception s field s_id sale st e st' rest :
  Schema_call s sale st = (Raise e, st') ->
  (forall es, e <> MultipleInvalid es) ->
  for_in ((s_id, sale) :: rest) (check_sale s field) st = (Raise e, st').
Proof.
  intros E Hne. apply for_in_stops. now apply check_sale_other.
Qed.

(* ===================================================================== *)
(** ** What each of the three schemas does on a row *)
(* ===================================================================== *)

Lemma sale_amount_call (sale : row) (st : state) :
  Schema_call SaleAmount.schema sale st =
  match sale !! "sale_amount" with
  | None => (Raise (MultipleInvalid [missing "sale_amount"]), st)
  | Some (PyFloat f) =>
      if PrimFloat.leb 2.50%float f then
        if PrimFloat.leb f 1450.99%float then (Return (<["sale_amount" := PyFloat f]> sale), st)
        else (Raise (MultipleInvalid
                       [at_key "sale_amount" cRangeInvalid
                               (Percent "value must be at most %s" (PyFloat 1450.99%float))]), st)
      else (Raise (MultipleInvalid
                     [at_key "sale_amount" cRangeInvalid
                             (Percent "value must be at least %s" (PyFloat 2.50%float))]), st)
  | Some _ =>
      (Raise (MultipleInvalid
                [at_key "sale_amount" cTypeInvalid (Percent "expected %s" (PyStr "float"))]), st)
  end.
Proof.
  unfold Schema_call. cbn [required SaleAmount.schema].
  destruct (sale !! "sale_amount") as [v|]; [|reflexivity].
  destruct v as [ |b|z|f|s|d]; try reflexivity.
  unfold bind, try_except. cbn.
  unfold bind, try_except, validate_callable, Range_call, bind, try_except. cbn.
  destruct (PrimFloat.leb 2.50%float f); cbn; [|reflexivity].
  destruct (PrimFloat.leb f 1450.99%float); reflexivity.
Qed.

Section DateSchemas.
Context `{Strptime}.

Lemma date_format_call (sale : row) (st : state) :
  Schema_call DateFormat.schema sale st =
  match sale !! "timestamp" with
  | None => (Raise (MultipleInvalid [missing "timestamp"]), st)
  | Some (PyStr s) =>
      match _strptime s default_fmt with
      | Some d => (Return (<["timestamp" := PyDatetime d]> sale), st)
      | None =>
          (Raise (MultipleInvalid
                    [at_key "timestamp" cValueInvalid (Lit "not a valid value")]), st)
      end
  | Some _ => (Raise TypeError, st)
  end.
Proof.
  unfold Schema_call. cbn [required DateFormat.schema].
  destruct (sale !! "timestamp") as [v|]; [|reflexivity].
  destruct v as [ |b|z|f|s|d]; try reflexivity.
  unfold bind, try_except. cbn.
  unfold bind, try_except, validate_callable, DateFormat.ValidDate, bind, try_except. cbn.
  destruct (_strptime s default_fmt); reflexivity.
Qed.

Lemma date_sanity_call (sale : row) (st : state) :
  Schema_call DateSanity.schema sale st =
  match sale !! "timestamp" with
  | None => (Raise (MultipleInvalid [missing "timestamp"]), st)
  | Some (PyStr s) =>
      match _strptime s default_fmt with
      | Some d =>
          if datetime.le d (clock st (tick st))
          then (Return (<["timestamp" := PyNone]> sale), set_tick (S (tick st)) st)
          else (Raise (MultipleInvalid
                         [at_key "timestamp" cInvalid
                                 (Percent "date is in the future! %s" (PyStr s))]),
                set_tick (S (tick st)) st)
      | None =>
          (Raise (MultipleInvalid
                    [at_key "timestamp" cValueInvalid (Lit "not a valid value")]), st)
      end
  | Some _ => (Raise TypeError, st)
  end.
Proof.
  unfold Schema_call. cbn [required DateSanity.schema].
  destruct (sale !! "timestamp") as [v|]; [|reflexivity].
  destruct v as [ |b|z|f|s|d]; try reflexivity.
  unfold bind, try_except. cbn.
  unfold bind, try_except, validate_callable, DateSanity.ValidDate,
    DateSanity.validation_func, bind, try_except. cbn.
  destruct (_strptime s default_fmt); [|reflexivity].
  unfold bind, datetime_now. cbn.
  destruct (datetime.le t (clock st (tick st))); reflexivity.
Qed.

(** The rule itself, before Voluptuous wraps it. *)
Lemma validation_func_run (fmt : string) (v : pyval) (st : state) :
  DateSanity.validation_func fmt v st =
  match v with
  | PyStr s =>
      match _strptime s fmt with
      | Some d =>
          if datetime.le d (clock st (tick st))
          then (Return PyNone, set_tick (S (tick st)) st)
          else (Raise (ExInvalid (mkInvalid cInvalid
                                            (Percent "date is in the future! %s" v) [] None)),
                set_tick (S (tick st)) st)
      | None => (Raise ValueError, st)
      end
  | _ => (Raise TypeError, st)
  end.
Proof.
  unfold DateSanity.validation_func, try_except, bind.
  destruct v as [ |b|z|f|s|d]; try reflexivity. cbn.
  destruct (_strptime s fmt) as [d|]; [|reflexivity]. cbn.
  destruct (datetime.le d (clock st (tick st))); reflexivity.
Qed.

End DateSchemas.

(* ===================================================================== *)
(** ** A schema call depends on the row and on the clock reading only *)
(* ===================================================================== *)

Lemma set_tick_add_0 st : set_tick (tick st + 0) st = st.
Proof. destruct st. unfold set_tick. cbn. now rewrite Nat.add_0_r. Qed.

Lemma set_tick_add_1 st : set_tick (tick st + 1) st = set_tick (S (tick st)) st.
Proof. unfold set_tick. now rewrite Nat.add_1_r. Qed.

Section Locality.
Context `{Strptime}.

Lemma checks_required s field :
  In (s, field) notebook_checks -> required s = field /\ extra s = ALLOW_EXTRA.
Proof.
  intros [E|[E|[E|[]]]]; inversion E; subst; split; reflexivity.
Qed.

Lemma schema_local s field sale st :
  In (s, field) notebook_checks ->
  Schema_call s sale st =
  (verdict s sale (clock st (tick st)),
   set_tick (tick st + reads s sale (clock st (tick st))) st).
Proof.
  intros [E|[E|[E|[]]]]; inversion E; subst; clear E; unfold verdict, reads.
  - rewrite !sale_amount_call.
    destruct (sale !! "sale_amount") as [[ | | |f| | ]|]; cbn;
      try (now rewrite set_tick_add_0).
    destruct (PrimFloat.leb 2.50%float f); [destruct (PrimFloat.leb f 1450.99%float)|];
      cbn; now rewrite set_tick_add_0.
  - rewrite !date_format_call.
    destruct (sale !! "timestamp") as [[ | | | |s| ]|]; cbn;
      try (now rewrite set_tick_add_0).
    destruct (_strptime s default_fmt); cbn; now rewrite set_tick_add_0.
  - rewrite !date_sanity_call.
    destruct (sale !! "timestamp") as [[ | | | |s| ]|]; cbn;
      try (now rewrite set_tick_add_0).
    destruct (_strptime s default_fmt) as [d|]; cbn; [|now rewrite set_tick_add_0].
    destruct (datetime.le d (clock st (tick st))); cbn; now rewrite set_tick_add_1.
Qed.

(** A checkable row never makes a schema raise anything but
    [MultipleInvalid]. *)
Lemma verdict_checkable s field sale now :
  In (s, field) notebook_checks ->
  checkable field sale = true ->
  (exists out, verdict s sale now = Return out) \/
  (exists es, verdict s sale now = Raise (MultipleInvalid es)).
Proof.
  unfold checkable.
  intros [E|[E|[E|[]]]] Hc; inversion E; subst; clear E; unfold verdict.
  - rewrite sale_amount_call.
    destruct (sale !! "sale_amount") as [[ | | |f| | ]|]; cbn; eauto.
    destruct (PrimFloat.leb 2.50%float f); [destruct (PrimFloat.leb f 1450.99%float)|];
      cbn; eauto.
  - rewrite date_format_call.
    destruct (sale !! "timestamp") as [[ | | | |s| ]|]; cbn in *; try discriminate.
    destruct (_strptime s default_fmt); cbn; eauto.
  - rewrite date_sanity_call.
    destruct (sale !! "timestamp") as [[ | | | |s| ]|]; cbn in *; try discriminate.
    destruct (_strptime s default_fmt) as [d|]; cbn; eauto.
    destruct (datetime.le d now); cbn; eauto.
Qed.

Lemma checkable_has_field field sale :
  checkable field sale = true -> exists v, sale !! field = Some v.
Proof.
  unfold checkable. destruct (sale !! field) as [v|]; [eauto|discriminate].
Qed.

Lemma run_checkable s field l st :
  In (s, field) notebook_checks ->
  Forall (fun x => checkable field (snd x) = true) l ->
  for_in l (check_sale s field) st = (Return tt, after_run s field l st).
Proof.
  intros Hin. revert st. induction l as [|[s_id sale] l IH]; intros st Hall.
  - cbn. unfold ret, after_run. cbn. destruct st; cbn.
    now rewrite Z.add_0_r, app_nil_r.
  - inversion Hall as [|? ? Hc Hl]; subst. cbn [snd] in Hc.
    rewrite for_in_cons.
    pose proof (schema_local s field sale st Hin) as Hloc.
    destruct (checkable_has_field _ _ Hc) as [v Hv].
    destruct (verdict_checkable s field sale (clock st (tick st)) Hin Hc)
      as [[out Ho]|[es He]].
    + rewrite Ho in Hloc. rewrite (check_sale_pass _ _ _ _ _ _ _ Hloc).
      rewrite IH by assumption. unfold after_run. cbn [expected_records expected_tick].
      rewrite Ho. cbn. reflexivity.
    + rewrite He in Hloc. rewrite (check_sale_fail _ _ _ _ _ _ _ _ Hloc Hv).
      rewrite IH by assumption. unfold after_run. cbn [expected_records expected_tick].
      rewrite He, Hv. cbn. f_equal. f_equal.
      * lia.
      * now rewrite <- app_assoc.
Qed.

End Locality.

(* ===================================================================== *)
(** ** The range rule on [sale_amount] *)
(* ===================================================================== *)

(** C1. A row whose [sale_amount] is a float inside the inclusive interval
    [2.50, 1450.99] passes the sale_amount schema, and the loop leaves the
    state as it was; a row whose [sale_amount] is a float outside the
    interval (a NaN included) makes the schema raise one range error at
    [sale_amount], and the loop logs it and adds one to [error_count]. *)
Theorem C1_sale_amount_interval (sale : row) (f : float) (s_id : Z) (st : state) :
  sale !! "sale_amount" = Some (PyFloat f) ->
  (in_interval f = true ->
     Schema_call SaleAmount.schema sale st = (Return sale, st) /\
     check_sale SaleAmount.schema "sale_amount" (s_id, sale) st = (Return tt, st)) /\
  (in_interval f = false ->
     exists e st',
       cls e = cRangeInvalid /\ path e = ["sale_amount"] /\
       Schema_call SaleAmount.schema sale st = (Raise (MultipleInvalid [e]), st) /\
       check_sale SaleAmount.schema "sale_amount" (s_id, sale) st = (Return tt, st') /\
       st' = counted (issue s_id (PyFloat f) (MultipleInvalid [e])) st /\
       error_count st' = (error_count st + 1)%Z).
Proof.
  intros Hv.
  pose proof (sale_amount_call sale st) as Hcall. rewrite Hv in Hcall.
  unfold in_interval. split; intros Hin.
  - apply andb_prop in Hin as [Hlo Hhi]. rewrite Hlo, Hhi in Hcall.
    rewrite (insert_id _ _ _ Hv) in Hcall. split; [exact Hcall|].
    exact (check_sale_pass _ _ _ _ _ _ _ Hcall).
  - destruct (PrimFloat.leb 2.50%float f).
    + cbn in Hin. rewrite Hin in Hcall.
      eexists; eexists. split; [|split; [|split; [exact Hcall|split; [|split]]]];
        try reflexivity.
      exact (check_sale_fail _ _ _ _ _ _ _ _ Hcall Hv).
    + eexists; eexists. split; [|split; [|split; [exact Hcall|split; [|split]]]];
        try reflexivity.
      exact (check_sale_fail _ _ _ _ _ _ _ _ Hcall Hv).
Qed.

Lemma C1_witness_inside :
  let sale := sale_row (PyFloat 500) (PyStr "2017-01-01T00:00:00") in
  sale !! "sale_amount" = Some (PyFloat 500) /\
  in_interval 500 = true /\
  Schema_call SaleAmount.schema sale (blank noon) = (Return sale, blank noon).
Proof.
  intros sale. split; [reflexivity|]. split; [reflexivity|].
  destruct (C1_sale_amount_interval sale 500 0 (blank noon) eq_refl) as [Hin _].
  destruct (Hin eq_refl) as [Hcall _]. exact Hcall.
Defined.

Lemma items_snd (df : list row) : map snd (items df) = df.
Proof.
  unfold items.
  assert (G : forall (f : nat -> row -> Z * row),
             (forall i r, snd (f i r) = r) -> map snd (imap f df) = df).
  { induction df as [|r df IH]; intros f Hf; cbn; [reflexivity|].
    rewrite Hf. f_equal. apply IH. intros i r'. apply Hf. }
  apply G. reflexivity.
Qed.

Lemma sale_amount_check (s_id : Z) (sale : row) (v : pyval) (st : state) :
  sale !! "sale_amount" = Some v ->
  exists st',
    check_sale SaleAmount.schema "sale_amount" (s_id, sale) st = (Return tt, st') /\
    error_count st' = (error_count st + if satisfies_range_rule v then 0 else 1)%Z.
Proof.
  intros Hv.
  pose proof (sale_amount_call sale st) as Hcall. rewrite Hv in Hcall.
  assert (Hfail : forall e, Schema_call SaleAmount.schema sale st
                             = (Raise (MultipleInvalid [e]), st) ->
                        satisfies_range_rule v = false ->
                        exists st',
                          check_sale SaleAmount.schema "sale_amount" (s_id, sale) st
                          = (Return tt, st') /\
                          error_count st' =
                          (error_count st + if satisfies_range_rule v then 0 else 1)%Z).
  { intros e He Hs. rewrite (check_sale_fail _ _ _ _ _ _ _ _ He Hv), Hs.
    eexists. split; reflexivity. }
  destruct v as [ |b|z|f|s|d]; try (eapply Hfail; [exact Hcall|reflexivity]).
  cbn [satisfies_range_rule] in *. unfold in_interval in *.
  destruct (PrimFloat.leb 2.50%float f); [destruct (PrimFloat.leb f 1450.99%float)|].
  - rewrite (check_sale_pass _ _ _ _ _ _ _ Hcall). exists st. split; [reflexivity|].
    cbn. lia.
  - eapply Hfail; [exact Hcall|reflexivity].
  - eapply Hfail; [exact Hcall|reflexivity].
Qed.

Lemma sale_amount_run (l : list (Z * row)) (st : state) :
  Forall (fun sale => is_Some (sale !! "sale_amount")) (map snd l) ->
  exists st',
    for_in l (check_sale SaleAmount.schema "sale_amount") st = (Return tt, st') /\
    error_count st' =
      (error_count st + Z.of_nat (length (List.filter violates_range_rule (map snd l))))%Z.
Proof.
  revert st. induction l as [|[s_id sale] l IH]; intros st Hall.
  - exists st. split; [reflexivity|]. cbn. lia.
  - cbn [map snd] in Hall. inversion Hall as [|? ? [v Hv] Hl]; subst.
    destruct (sale_amount_check s_id sale v st Hv) as [st1 [H1 Hc1]].
    destruct (IH st1 Hl) as [st' [Hrun Hc]].
    exists st'. rewrite for_in_cons, H1. split; [exact Hrun|].
    rewrite Hc, Hc1. cbn [map snd List.filter]. unfold violates_range_rule at 2.
    rewrite Hv. destruct (satisfies_range_rule v); cbn [negb length]; lia.
Qed.

(** C3. When every row of the table has a [sale_amount] value and exactly
    [K] of them have one the range rule rejects, the sale_amount cell runs
    to its end and leaves [error_count] equal to [K]. *)
Theorem C3_error_count_is_K (st : state) (K : nat) :
  Forall (fun sale => is_Some (sale !! "sale_amount")) (sales st) ->
  length (List.filter violates_range_rule (sales st)) = K ->
  exists st', SaleAmount.cell st = (Return tt, st') /\ error_count st' = Z.of_nat K.
Proof.
  intros Hall HK.
  unfold SaleAmount.cell. rewrite count_errors_run.
  destruct (sale_amount_run (items (sales st)) (set_error_count 0 st)) as [st' [Hrun Hc]].
  - now rewrite items_snd.
  - exists st'. split; [exact Hrun|]. rewrite Hc, items_snd, HK. reflexivity.
Qed.

Lemma C3_witness :
  exists st',
    SaleAmount.cell (initial (fun _ => noon) sample) = (Return tt, st') /\
    error_count st' = 3%Z.
Proof.
  apply (C3_error_count_is_K (initial (fun _ => noon) sample) 3).
  - repeat constructor; eexists; reflexivity.
  - reflexivity.
Defined.

(* ===================================================================== *)
(** ** The date rules *)
(* ===================================================================== *)

Lemma append_empty (s : string) : String.append s "" = s.
Proof.
  induction s as [|c s IH]; [reflexivity|].
  change (String c (String.append s "") = String c s). now rewrite IH.
Qed.

Lemma gt_not_le (d now : datetime.t) : datetime.gt d now = negb (datetime.le d now).
Proof. unfold datetime.gt, datetime.le. now destruct (datetime._cmp d now). Qed.

Lemma cmp_tuple_refl (x : list Z) : datetime._cmp_tuple x x = Eq.
Proof. induction x as [|a x IH]; cbn; [reflexivity|]. now rewrite Z.compare_refl. Qed.

Lemma le_refl (d : datetime.t) : datetime.le d d = true.
Proof. unfold datetime.le, datetime._cmp. now rewrite cmp_tuple_refl. Qed.

(** No valid datetime is before [datetime.min]. *)
Lemma le_datetime_min (now : datetime.t) :
  valid_datetime now = true -> datetime.le datetime_min now = true.
Proof.
  unfold valid_datetime. rewrite !andb_true_iff, !Z.leb_le. intros Hv.
  unfold datetime.le, datetime._cmp, datetime_min.
  cbn [datetime._getstate datetime._cmp_tuple datetime.year datetime.month
       datetime.day datetime.hour datetime.minute datetime.second
       datetime.microsecond].
  repeat match goal with
         | |- context [(?a ?= ?b)%Z] =>
             destruct (Z.compare_spec a b); try reflexivity; try lia
         end.
Qed.

Section DateRules.
Context `{Strptime}.

(** C4. A row whose [timestamp] is a string that does not parse under the
    format makes both date schemas (format only, and sanity) raise one error
    at [timestamp] whose message is Voluptuous's 'not a valid value', the
    clock is not read, and that message is never the text of a
    'date is in the future!' message, whatever the date it quotes. *)
Theorem C4_unparsable_is_a_format_error (sale : row) (s : string) (st : state) :
  sale !! "timestamp" = Some (PyStr s) ->
  _strptime s default_fmt = None ->
  let e := at_key "timestamp" cValueInvalid (Lit "not a valid value") in
  Schema_call DateFormat.schema sale st = (Raise (MultipleInvalid [e]), st) /\
  Schema_call DateSanity.schema sale st = (Raise (MultipleInvalid [e]), st) /\
  (forall str, render str (error_message e) = "not a valid value") /\
  (forall str v,
     render str (error_message e) <>
     render str (Percent "date is in the future! %s" v)).
Proof.
  intros Hv Hp e. split; [|split; [|split]].
  - rewrite date_format_call, Hv, Hp. reflexivity.
  - rewrite date_sanity_call, Hv, Hp. reflexivity.
  - reflexivity.
  - intros str v. cbn. discriminate.
Qed.

(** C2, as the code has it. For a value that is a string and parses under
    the format, the sanity rule reads the wall clock once and raises
    [Invalid] with the message 'date is in the future! <the string>' exactly
    when the parsed date is strictly after that reading; when the date is at
    or before the reading it returns. The schema built on the rule with the
    default format then raises that one error at [timestamp], or passes (the
    validated [timestamp] is [None]). *)
Theorem C2_future_date_against_the_clock (sale : row) (s : string) (d : datetime.t)
        (st : state) :
  sale !! "timestamp" = Some (PyStr s) ->
  _strptime s default_fmt = Some d ->
  let now := clock st (tick st) in
  let st' := set_tick (S (tick st)) st in
  let m := Percent "date is in the future! %s" (PyStr s) in
  (datetime.gt d now = true ->
     DateSanity.validation_func default_fmt (PyStr s) st
       = (Raise (ExInvalid (mkInvalid cInvalid m [] None)), st') /\
     Schema_call DateSanity.schema sale st
       = (Raise (MultipleInvalid [at_key "timestamp" cInvalid m]), st')) /\
  (datetime.gt d now = false ->
     DateSanity.validation_func default_fmt (PyStr s) st = (Return PyNone, st') /\
     Schema_call DateSanity.schema sale st
       = (Return (<["timestamp" := PyNone]> sale), st')) /\
  (forall str, str (PyStr s) = s ->
     render str m = "date is in the future! " +:+ s).
Proof.
  intros Hv Hp now st' m.
  rewrite validation_func_run, date_sanity_call, Hv, Hp, gt_not_le.
  fold now. split; [|split].
  - intros Hgt. destruct (datetime.le d now); [discriminate|split; reflexivity].
  - intros Hgt. destruct (datetime.le d now); [split; reflexivity|discriminate].
  - intros str Hs. cbn. now rewrite Hs, append_empty.
Qed.

(** C8, as the code has it. The sanity check is a function of the row and
    of the time the wall clock reads while the row is checked, a time the
    check reads itself: two states whose clocks read the same time give the
    same outcome on the same value and on the same row, whatever else they
    hold. For every row whose [timestamp] parses to a valid date later than
    [datetime.min] there are two valid readings that give different
    outcomes, the date itself and [datetime.min], so that a table made of
    that row counts no error under one clock and one error under the other;
    a row dated [datetime.min] passes at every valid reading. *)
Theorem C8_function_of_row_and_now :
  (forall (fmt : string) (v : pyval) (st1 st2 : state),
      clock st1 (tick st1) = clock st2 (tick st2) ->
      fst (DateSanity.validation_func fmt v st1) =
      fst (DateSanity.validation_func fmt v st2)) /\
  (forall (sale : row) (st1 st2 : state),
      clock st1 (tick st1) = clock st2 (tick st2) ->
      fst (Schema_call DateSanity.schema sale st1) =
      fst (Schema_call DateSanity.schema sale st2)) /\
  (forall (sale : row) (s : string) (d : datetime.t),
      sale !! "timestamp" = Some (PyStr s) ->
      _strptime s default_fmt = Some d ->
      valid_datetime d = true ->
      datetime.gt d datetime_min = true ->
      exists now1 now2 : datetime.t,
        valid_datetime now1 = true /\ valid_datetime now2 = true /\
        verdict DateSanity.schema sale now1 = Return (<["timestamp" := PyNone]> sale) /\
        verdict DateSanity.schema sale now2 =
          Raise (MultipleInvalid
                   [at_key "timestamp" cInvalid
                           (Percent "date is in the future! %s" (PyStr s))]) /\
        forall st, sales st = [sale] ->
          error_count (snd (DateSanity.cell (set_clock (fun _ => now1) st))) = 0%Z /\
          error_count (snd (DateSanity.cell (set_clock (fun _ => now2) st))) = 1%Z) /\
  (forall (sale : row) (s : string) (now : datetime.t),
      sale !! "timestamp" = Some (PyStr s) ->
      _strptime s default_fmt = Some datetime_min ->
      valid_datetime now = true ->
      verdict DateSanity.schema sale now = Return (<["timestamp" := PyNone]> sale)).
Proof.
  split; [|split; [|split]].
  - intros fmt v st1 st2 Hnow. rewrite !validation_func_run, Hnow.
    destruct v as [ |b|z|f|s|d]; try reflexivity.
    destruct (_strptime s fmt) as [d|]; [|reflexivity].
    destruct (datetime.le d (clock st2 (tick st2))); reflexivity.
  - intros sale st1 st2 Hnow.
    rewrite (schema_local DateSanity.schema "timestamp" sale st1),
            (schema_local DateSanity.schema "timestamp" sale st2);
      [|right; right; left; reflexivity..].
    cbn [fst]. now rewrite Hnow.
  - intros sale s d Hv Hp Hvalid Hgt. exists d, datetime_min.
    assert (Hle : datetime.le d datetime_min = false).
    { rewrite gt_not_le in Hgt. now destruct (datetime.le d datetime_min). }
    assert (V1 : verdict DateSanity.schema sale d = Return (<["timestamp" := PyNone]> sale)).
    { unfold verdict. rewrite date_sanity_call, Hv, Hp. cbn. now rewrite le_refl. }
    assert (V2 : verdict DateSanity.schema sale datetime_min =
                 Raise (MultipleInvalid
                          [at_key "timestamp" cInvalid
                                  (Percent "date is in the future! %s" (PyStr s))])).
    { unfold verdict. rewrite date_sanity_call, Hv, Hp.
      cbn [clock tick blank]. now rewrite Hle. }
    split; [exact Hvalid|]. split; [reflexivity|]. split; [exact V1|]. split; [exact V2|].
    intros st Hs. unfold DateSanity.cell. rewrite !count_errors_run.
    cbn [sales set_clock]. rewrite Hs. cbn [items imap].
    rewrite !for_in_cons. split.
    + erewrite check_sale_pass.
      2:{ rewrite date_sanity_call, Hv, Hp. cbn. rewrite le_refl. reflexivity. }
      reflexivity.
    + erewrite check_sale_fail; [| |exact Hv].
      2:{ rewrite date_sanity_call, Hv, Hp. cbn [clock tick set_error_count set_clock].
          rewrite Hle. reflexivity. }
      reflexivity.
  - intros sale s now Hv Hp Hvalid. unfold verdict.
    rewrite date_sanity_call, Hv, Hp. cbn [clock tick blank].
    now rewrite (le_datetime_min now Hvalid).
Qed.

(** C10. All three schemas are built with [extra=ALLOW_EXTRA], and under
    [ALLOW_EXTRA] a row that holds the required field with a value the rule
    accepts passes whatever other fields it holds: the validated row is the
    row itself with the required field replaced by what the rule returned. *)
Theorem C10_extra_fields_never_fail (s : Schema) (field : string) :
  In (s, field) notebook_checks ->
  extra s = ALLOW_EXTRA /\ required s = field /\
  forall (sale : row) (v cval : pyval) (st st' : state),
    sale !! field = Some v ->
    value s [field] v st = (Return cval, st') ->
    Schema_call s sale st = (Return (<[field := cval]> sale), st') /\
    forall (k : string) (w : pyval),
      k <> field ->
      Schema_call s (<[k := w]> sale) st =
      (Return (<[field := cval]> (<[k := w]> sale)), st').
Proof.
  intros Hin. destruct (checks_required s field Hin) as [Hr He].
  split; [exact He|]. split; [exact Hr|].
  assert (G : forall (sale : row) v cval st st',
             sale !! field = Some v ->
             value s [field] v st = (Return cval, st') ->
             Schema_call s sale st = (Return (<[field := cval]> sale), st')).
  { intros sale v cval st st' Hv Hval.
    unfold Schema_call, bind, try_except, extra_errors, output.
    rewrite Hr, Hv, Hval, He. reflexivity. }
  intros sale v cval st st' Hv Hval. split; [now apply (G sale v)|].
  intros k w Hk. apply (G _ v); [|exact Hval].
  now rewrite lookup_insert_ne.
Qed.

End DateRules.

(* ===================================================================== *)
(** ** The loop: what it catches, what it logs, what it leaves alone *)
(* ===================================================================== *)

Section Loop.
Context `{Strptime}.

Lemma check_sale_frame s field x st :
  In (s, field) notebook_checks ->
  let st' := snd (check_sale s field x st) in
  sales st' = sales st /\ clock st' = clock st.
Proof.
  intros Hin. destruct x as [s_id sale].
  unfold check_sale, try_except, bind. rewrite (schema_local s field sale st Hin).
  destruct (verdict s sale (clock st (tick st))) as [out|e]; [split; reflexivity|].
  destruct e; try (split; reflexivity).
  unfold getitem. destruct (sale !! field); split; reflexivity.
Qed.

Lemma for_in_frame s field l st :
  In (s, field) notebook_checks ->
  let st' := snd (for_in l (check_sale s field) st) in
  sales st' = sales st /\ clock st' = clock st.
Proof.
  intros Hin. revert st. induction l as [|x l IH]; intros st; [split; reflexivity|].
  cbn zeta. rewrite for_in_cons.
  destruct (check_sale_frame s field x st Hin) as [Hs Hc].
  destruct (check_sale s field x st) as [[[]|e] st1]; cbn [snd] in *.
  - destruct (IH st1) as [Hs' Hc']. split; congruence.
  - split; assumption.
Qed.

Lemma count_errors_frame s field st :
  In (s, field) notebook_checks ->
  sales (snd (count_errors s field st)) = sales st.
Proof.
  intros Hin. rewrite count_errors_run.
  now destruct (for_in_frame s field (items (sales st)) (set_error_count 0 st) Hin).
Qed.

(** C7. Whichever of the three cells runs, and whether it runs to its end
    or stops on an exception, the table afterwards is the table before:
    the loops read the rows and change nothing but the counter, the log and
    the clock's position. *)
Theorem C7_table_unchanged (st : state) :
  sales (snd (SaleAmount.cell st)) = sales st /\
  sales (snd (DateFormat.cell st)) = sales st /\
  sales (snd (DateSanity.cell st)) = sales st.
Proof.
  split; [|split]; apply count_errors_frame.
  - left; reflexivity.
  - right; left; reflexivity.
  - right; right; left; reflexivity.
Qed.

(** C9, as the code has it. In each of the three loops, for a row that
    holds the logged field: when the schema raises [MultipleInvalid] the
    iteration adds exactly one record to the log, at level WARNING, with the
    message 'issue with sale: %s (%s) - %s' and the arguments row id, field
    value and the exception raised; when the schema passes, the log is left
    as it was. Over a table of checkable rows the log grows by exactly these
    records, one per failing row, in the order of the rows. *)
Theorem C9_one_warning_per_failing_row (s : Schema) (field : string) :
  In (s, field) notebook_checks ->
  (forall (s_id : Z) (sale : row) (v : pyval) (st : state),
      sale !! field = Some v ->
      let r := check_sale s field (s_id, sale) st in
      (forall es st', Schema_call s sale st = (Raise (MultipleInvalid es), st') ->
         fst r = Return tt /\
         records (snd r) =
           records st ++ [mkLogRecord WARNING "issue with sale: %s (%s) - %s"
                            [ObjVal (PyInt s_id); ObjVal v; ObjExn (MultipleInvalid es)]]) /\
      (forall out st', Schema_call s sale st = (Return out, st') ->
         fst r = Return tt /\ records (snd r) = records st)) /\
  (forall st : state,
      Forall (fun sale => checkable field sale = true) (sales st) ->
      let r := count_errors s field st in
      fst r = Return tt /\
      records (snd r) =
        records st ++ expected_records s field (clock st) (tick st) (items (sales st))).
Proof.
  intros Hin. split.
  - intros s_id sale v st Hv r. split.
    + intros es st' Hcall. subst r.
      rewrite (check_sale_fail _ _ _ _ _ _ _ _ Hcall Hv). cbn. split; [reflexivity|].
      rewrite (schema_local s field sale st Hin) in Hcall. inversion Hcall. reflexivity.
    + intros out st' Hcall. subst r.
      rewrite (check_sale_pass _ _ _ _ _ _ _ Hcall). cbn. split; [reflexivity|].
      rewrite (schema_local s field sale st Hin) in Hcall. inversion Hcall. reflexivity.
  - intros st Hall r. subst r. rewrite count_errors_run.
    rewrite (run_checkable s field _ _ Hin).
    + split; reflexivity.
    + apply (proj1 (List.Forall_map snd (fun sale => checkable field sale = true)
                                      (items (sales st)))).
      now rewrite items_snd.
Qed.

(** C5, as the code has it. Whatever the schema, a failure it raises as
    [MultipleInvalid] on a row that holds the logged field is caught: the
    iteration logs one record, adds one to [error_count], returns normally,
    and the loop goes on with the remaining rows. The notebook's schemas
    raise [MultipleInvalid] for a [sale_amount] that is not a float or lies
    outside the interval, for a [timestamp] string that does not parse and
    for a [timestamp] string that parses to a date after the clock's
    reading. *)
Theorem C5_reported_failures_are_logged_and_counted :
  (forall (s : Schema) (field : string) (s_id : Z) (sale : row) (v : pyval)
          (es : list Invalid) (st st' : state) (rest : list (Z * row)),
      sale !! field = Some v ->
      Schema_call s sale st = (Raise (MultipleInvalid es), st') ->
      let st'' := counted (issue s_id v (MultipleInvalid es)) st' in
      check_sale s field (s_id, sale) st = (Return tt, st'') /\
      error_count st'' = (error_count st' + 1)%Z /\
      records st'' = records st' ++ [issue s_id v (MultipleInvalid es)] /\
      for_in ((s_id, sale) :: rest) (check_sale s field) st =
        for_in rest (check_sale s field) st'') /\
  (forall (sale : row) (v : pyval) (st : state),
      sale !! "sale_amount" = Some v ->
      satisfies_range_rule v = false ->
      exists e, Schema_call SaleAmount.schema sale st = (Raise (MultipleInvalid [e]), st)) /\
  (forall (sale : row) (str : string) (st : state),
      sale !! "timestamp" = Some (PyStr str) ->
      _strptime str default_fmt = None ->
      exists e,
        Schema_call DateFormat.schema sale st = (Raise (MultipleInvalid [e]), st) /\
        Schema_call DateSanity.schema sale st = (Raise (MultipleInvalid [e]), st)) /\
  (forall (sale : row) (str : string) (d : datetime.t) (st : state),
      sale !! "timestamp" = Some (PyStr str) ->
      _strptime str default_fmt = Some d ->
      datetime.gt d (clock st (tick st)) = true ->
      exists e st',
        Schema_call DateSanity.schema sale st = (Raise (MultipleInvalid [e]), st')).
Proof.
  split; [|split; [|split]].
  - intros s field s_id sale v es st st' rest Hv Hcall st''.
    pose proof (check_sale_fail _ field s_id _ _ _ _ _ Hcall Hv) as Hc.
    split; [exact Hc|]. split; [reflexivity|]. split; [reflexivity|].
    rewrite for_in_cons, Hc. reflexivity.
  - intros sale v st Hv Hs. rewrite sale_amount_call, Hv.
    destruct v as [ |b|z|f|s|d]; eauto.
    cbn in Hs. unfold in_interval in Hs.
    destruct (PrimFloat.leb 2.50%float f); [|eauto].
    cbn in Hs. rewrite Hs. eauto.
  - intros sale str st Hv Hp. rewrite date_format_call, date_sanity_call, Hv, Hp. eauto.
  - intros sale str d st Hv Hp Hgt. rewrite date_sanity_call, Hv, Hp.
    rewrite gt_not_le in Hgt. destruct (datetime.le d (clock st (tick st)));
      [discriminate|eauto].
Qed.

(** C6, as the code has it. In each of the three loops, over a table whose
    rows are all checkable (each holds the logged field, as a string when it
    is the timestamp): the rows before a given row, failing or not, are all
    run and leave the state [after_run] computes from their verdicts; the
    row is then validated in that state, the schema's outcome on it is the
    verdict for that row and the clock's reading, a function of these two
    alone, and the iteration logs and counts it exactly when that verdict
    is a failure; the rows after it are run in turn from the state this
    leaves, so that the whole loop ends normally with the log grown by one
    record per failing row of the table, in order, and the counter grown by
    their number. *)
Theorem C6_rows_are_validated_independently (s : Schema) (field : string)
        (pre post : list (Z * row)) (s_id : Z) (sale : row) (st : state) :
  In (s, field) notebook_checks ->
  Forall (fun x => checkable field (snd x) = true) (pre ++ (s_id, sale) :: post) ->
  let table := pre ++ (s_id, sale) :: post in
  let st1 := after_run s field pre st in
  let now := clock st (tick st1) in
  let st2 := set_tick (tick st1 + reads s sale now) st1 in
  exists (v : pyval) (st3 : state),
    sale !! field = Some v /\
    for_in pre (check_sale s field) st = (Return tt, st1) /\
    Schema_call s sale st1 = (verdict s sale now, st2) /\
    st3 = match verdict s sale now with
          | Raise (MultipleInvalid es) => counted (issue s_id v (MultipleInvalid es)) st2
          | _ => st2
          end /\
    check_sale s field (s_id, sale) st1 = (Return tt, st3) /\
    for_in table (check_sale s field) st = for_in post (check_sale s field) st3 /\
    for_in post (check_sale s field) st3 = (Return tt, after_run s field post st3) /\
    after_run s field post st3 = after_run s field table st /\
    records (after_run s field table st) =
      records st ++ expected_records s field (clock st) (tick st) table /\
    error_count (after_run s field table st) =
      (error_count st
       + Z.of_nat (length (expected_records s field (clock st) (tick st) table)))%Z.
Proof.
  intros Hin Hall table st1 now st2.
  pose proof (proj1 (Forall_app _ _ _) Hall) as [Hpre Hrest].
  inversion Hrest as [|? ? Hx Hpost]; subst. cbn [snd] in Hx.
  destruct (checkable_has_field _ _ Hx) as [v Hv].
  pose proof (run_checkable s field pre st Hin Hpre) as Rpre. fold st1 in Rpre.
  pose proof (run_checkable s field table st Hin Hall) as Rall.
  pose proof (schema_local s field sale st1 Hin) as Hloc.
  change (clock st1) with (clock st) in Hloc. fold now in Hloc. fold st2 in Hloc.
  assert (Hcheck : check_sale s field (s_id, sale) st1 =
                   (Return tt,
                    match verdict s sale now with
                    | Raise (MultipleInvalid es) =>
                        counted (issue s_id v (MultipleInvalid es)) st2
                    | _ => st2
                    end)).
  { destruct (verdict_checkable s field sale now Hin Hx) as [[out Ho]|[es He]].
    - rewrite Ho in *. exact (check_sale_pass _ _ _ _ _ _ _ Hloc).
    - rewrite He in *. exact (check_sale_fail _ _ _ _ _ _ _ _ Hloc Hv). }
  eexists v, _. split; [exact Hv|]. split; [exact Rpre|]. split; [exact Hloc|].
  split; [reflexivity|]. split; [exact Hcheck|].
  assert (Hsplit : for_in table (check_sale s field) st =
                   for_in post (check_sale s field)
                          match verdict s sale now with
                          | Raise (MultipleInvalid es) =>
                              counted (issue s_id v (MultipleInvalid es)) st2
                          | _ => st2
                          end).
  { unfold table. rewrite (for_in_app _ _ _ _ _ Rpre), for_in_cons, Hcheck.
    reflexivity. }
  pose proof (run_checkable s field post
                match verdict s sale now with
                | Raise (MultipleInvalid es) =>
                    counted (issue s_id v (MultipleInvalid es)) st2
                | _ => st2
                end Hin Hpost) as Rpost.
  split; [exact Hsplit|]. split; [exact Rpost|]. split.
  - rewrite Rall, Rpost in Hsplit. pose proof (f_equal snd Hsplit) as E.
    cbn [snd] in E. symmetry. exact E.
  - split; reflexivity.
Qed.

End Loop.

(* ===================================================================== *)
(** ** Where the code departs from the statements, on concrete tables *)
(* ===================================================================== *)

(** The rule takes the value and nothing else; the time comes from the
    clock it reads. The same call made twice gives two outcomes, and a
    table of two identical rows counts one error, when the clock moves from
    11:59:59 to 12:00:00 between the two. *)
Lemma C2_clock_is_read_not_injected :
  let v := PyStr "2017-06-01T12:00:00" in
  let st0 := initial ticking [sale_row (PyFloat 500) v; sale_row (PyFloat 500) v] in
  (exists e st1 st2,
      @DateSanity.validation_func ref_strptime default_fmt v st0
        = (Raise (ExInvalid e), st1) /\
      @DateSanity.validation_func ref_strptime default_fmt v st1
        = (Return PyNone, st2)) /\
  (exists st',
      @DateSanity.cell ref_strptime st0 = (Return tt, st') /\
      error_count st' = 1%Z /\
      exists e, records st' = [issue 0 v e]).
Proof.
  intros v st0. split.
  - eexists; eexists; eexists. split; vm_compute; reflexivity.
  - eexists. split; [vm_compute; reflexivity|]. split; [reflexivity|].
    eexists. reflexivity.
Qed.

(** A row without the logged field, and a row whose timestamp is not a
    string (the NaN pandas gives an empty cell), stop the run with a
    [KeyError] and a [TypeError]: nothing is logged, nothing is counted. *)
Lemma C5_some_kinds_stop_the_run :
  (let st0 := initial (fun _ => noon) [ {[ "timestamp" := PyStr "2017-01-01T00:00:00" ]} ] in
   (exists es, fst (Schema_call SaleAmount.schema
                      {[ "timestamp" := PyStr "2017-01-01T00:00:00" ]} st0)
               = Raise (MultipleInvalid es)) /\
   SaleAmount.cell st0 = (Raise (KeyError "sale_amount"), st0)) /\
  (let st0 := initial (fun _ => noon) [ sale_row (PyFloat 500) (PyFloat nan) ] in
   @DateFormat.cell ref_strptime st0 = (Raise TypeError, st0) /\
   @DateSanity.cell ref_strptime st0 = (Raise TypeError, st0)).
Proof.
  split; [split|split].
  - eexists. vm_compute. reflexivity.
  - vm_compute. reflexivity.
  - vm_compute. reflexivity.
  - vm_compute. reflexivity.
Qed.

(** Behind a row whose timestamp is not a string, and behind a row that
    fails for want of the logged column, the next row is never validated:
    the run stops there, with nothing counted and nothing logged, although
    the next row fails the schema too. *)
Lemma C6_a_row_can_stop_the_loop :
  let empty_ts := sale_row (PyFloat 1) (PyFloat nan) in
  let future := sale_row (PyFloat 1) (PyStr "2099-01-01T00:00:00") in
  let no_amount1 := {[ "timestamp" := PyStr "2017-01-01T00:00:00" ]} : row in
  let no_amount2 := {[ "timestamp" := PyStr "2099-01-01T00:00:00" ]} : row in
  (@DateSanity.cell ref_strptime (initial (fun _ => noon) [empty_ts; future])
     = (Raise TypeError, initial (fun _ => noon) [empty_ts; future]) /\
   error_count (snd (@DateSanity.cell ref_strptime (initial (fun _ => noon) [future])))
     = 1%Z) /\
  ((exists es, verdict SaleAmount.schema no_amount1 noon = Raise (MultipleInvalid es)) /\
   (exists es, verdict SaleAmount.schema no_amount2 noon = Raise (MultipleInvalid es)) /\
   SaleAmount.cell (initial (fun _ => noon) [no_amount1; no_amount2])
     = (Raise (KeyError "sale_amount"), initial (fun _ => noon) [no_amount1; no_amount2])).
Proof.
  intros empty_ts future no_amount1 no_amount2. split; [split|split; [|split]].
  - vm_compute. reflexivity.
  - vm_compute. reflexivity.
  - eexists. vm_compute. reflexivity.
  - eexists. vm_compute. reflexivity.
  - vm_compute. reflexivity.
Qed.

(** The check has no argument for the time: run twice on the same table,
    with nothing passed in between, the sanity cell counts one error and
    then none, and the schema gives two outcomes on the same row, because
    the clock it reads has moved from 11:59:59 to 12:00:00. *)
Lemma C8_same_row_two_outcomes :
  let sale := sale_row (PyFloat 500) (PyStr "2017-06-01T12:00:00") in
  let st0 := initial ticking [sale] in
  let r1 := @DateSanity.cell ref_strptime st0 in
  let r2 := @DateSanity.cell ref_strptime (snd r1) in
  sales (snd r1) = sales st0 /\
  (fst r1 = Return tt /\ error_count (snd r1) = 1%Z) /\
  (fst r2 = Return tt /\ error_count (snd r2) = 0%Z) /\
  (exists es, fst (Schema_call (@DateSanity.schema ref_strptime) sale st0)
              = Raise (MultipleInvalid es)) /\
  (exists out, fst (Schema_call (@DateSanity.schema ref_strptime) sale (snd r1))
               = Return out).
Proof.
  intros sale st0 r1 r2. split; [reflexivity|]. split; [|split; [|split]].
  - vm_compute. split; reflexivity.
  - vm_compute. split; reflexivity.
  - eexists. vm_compute. reflexivity.
  - eexists. vm_compute. reflexivity.
Qed.

(** Two rows that fail and leave no line in the log: one lacks the logged
    field (the schema raises [MultipleInvalid], the handler a [KeyError]),
    the other holds a timestamp that is not a string (a [TypeError] leaves
    the schema). *)
Lemma C9_failing_rows_without_a_log_line :
  let bad := {[ "timestamp" := PyStr "2099-01-01T00:00:00" ]} : row in
  let blank_ts := sale_row (PyFloat 500) (PyFloat nan) in
  (exists es, verdict SaleAmount.schema bad noon = Raise (MultipleInvalid es)) /\
  (let r := SaleAmount.cell (initial (fun _ => noon) [bad]) in
   fst r = Raise (KeyError "sale_amount") /\ records (snd r) = []) /\
  (let r := @DateFormat.cell ref_strptime (initial (fun _ => noon) [blank_ts]) in
   fst r = Raise TypeError /\ records (snd r) = []).
Proof.
  intros bad blank_ts. split; [|split].
  - eexists. vm_compute. reflexivity.
  - vm_compute. split; reflexivity.
  - vm_compute. split; reflexivity.
Qed.

(* ===================================================================== *)
(** ** The theorems at concrete rows *)
(* ===================================================================== *)

Lemma C2_witness :
  let sale := sale_row (PyFloat 500) (PyStr "2099-01-01T00:00:00") in
  sale !! "timestamp" = Some (PyStr "2099-01-01T00:00:00") /\
  RefParser.parse "2099-01-01T00:00:00" default_fmt = Some (at_ 2099 1 1 0 0 0) /\
  datetime.gt (at_ 2099 1 1 0 0 0) noon = true /\
  exists e st',
    Schema_call (@DateSanity.schema ref_strptime) sale (blank noon)
    = (Raise (MultipleInvalid [e]), st').
Proof.
  intros sale. split; [reflexivity|]. split; [vm_compute; reflexivity|].
  split; [reflexivity|].
  destruct (@C2_future_date_against_the_clock ref_strptime sale
              "2099-01-01T00:00:00" (at_ 2099 1 1 0 0 0) (blank noon))
    as [Hfuture _].
  - reflexivity.
  - vm_compute. reflexivity.
  - eexists; eexists. apply (proj2 (Hfuture eq_refl)).
Defined.

Lemma C4_witness :
  let sale := sale_row (PyFloat 500) (PyStr "yesterday") in
  sale !! "timestamp" = Some (PyStr "yesterday") /\
  RefParser.parse "yesterday" default_fmt = None /\
  exists e,
    Schema_call (@DateSanity.schema ref_strptime) sale (blank noon)
    = (Raise (MultipleInvalid [e]), blank noon).
Proof.
  intros sale. split; [reflexivity|]. split; [vm_compute; reflexivity|].
  destruct (@C4_unparsable_is_a_format_error ref_strptime sale "yesterday" (blank noon))
    as [_ [Hsanity _]].
  - reflexivity.
  - vm_compute. reflexivity.
  - eexists. exact Hsanity.
Defined.

Lemma C5_witness :
  let sale := sale_row (PyFloat 1) (PyStr "2017-01-01T00:00:00") in
  sale !! "sale_amount" = Some (PyFloat 1) /\
  satisfies_range_rule (PyFloat 1) = false /\
  exists e,
    check_sale SaleAmount.schema "sale_amount" (7%Z, sale) (blank noon)
    = (Return tt, counted (issue 7 (PyFloat 1) (MultipleInvalid [e])) (blank noon)).
Proof.
  intros sale. split; [reflexivity|]. split; [reflexivity|].
  destruct (@C5_reported_failures_are_logged_and_counted ref_strptime)
    as [Hhandled [Hkind _]].
  destruct (Hkind sale (PyFloat 1) (blank noon) eq_refl eq_refl) as [e He].
  exists e.
  destruct (Hhandled SaleAmount.schema "sale_amount" 7%Z sale (PyFloat 1) [e]
                     (blank noon) (blank noon) [] eq_refl He) as [Hc _].
  exact Hc.
Defined.

Lemma C6_witness :
  In (@DateSanity.schema ref_strptime, "timestamp") (@notebook_checks ref_strptime) /\
  Forall (fun x => checkable "timestamp" (snd x) = true) (items sample) /\
  for_in (items sample) (check_sale (@DateSanity.schema ref_strptime) "timestamp")
         (initial (fun _ => noon) sample)
  = (Return tt,
     after_run (@DateSanity.schema ref_strptime) "timestamp" (items sample)
               (initial (fun _ => noon) sample)).
Proof.
  assert (Hin : In (@DateSanity.schema ref_strptime, "timestamp")
                   (@notebook_checks ref_strptime)).
  { right; right; left; reflexivity. }
  assert (Hall : Forall (fun x => checkable "timestamp" (snd x) = true) (items sample)).
  { repeat constructor. }
  split; [exact Hin|]. split; [exact Hall|].
  pose proof (@C6_rows_are_validated_independently ref_strptime
                (@DateSanity.schema ref_strptime) "timestamp"
                [(0%Z, sale_row (PyFloat 500) (PyStr "2017-01-01T00:00:00"))]
                (skipn 2 (items sample))
                1%Z (sale_row (PyFloat 1) (PyStr "2099-01-01T00:00:00"))
                (initial (fun _ => noon) sample) Hin Hall) as W.
  cbn zeta in W.
  destruct W as [v [st3 [_ [_ [_ [_ [_ [Hsplit [Rpost [Eafter _]]]]]]]]]].
  eapply eq_trans; [exact Hsplit|]. eapply eq_trans; [exact Rpost|].
  f_equal. exact Eafter.
Defined.

Lemma C8_witness :
  let sale := sale_row (PyFloat 500) (PyStr "2017-06-01T12:00:00") in
  sale !! "timestamp" = Some (PyStr "2017-06-01T12:00:00") /\
  RefParser.parse "2017-06-01T12:00:00" default_fmt = Some noon /\
  valid_datetime noon = true /\
  datetime.gt noon datetime_min = true /\
  exists now1 now2 : datetime.t,
    valid_datetime now1 = true /\ valid_datetime now2 = true /\
    (exists out, verdict (@DateSanity.schema ref_strptime) sale now1 = Return out) /\
    (exists es, verdict (@DateSanity.schema ref_strptime) sale now2
                = Raise (MultipleInvalid es)).
Proof.
  intros sale. split; [reflexivity|]. split; [vm_compute; reflexivity|].
  split; [reflexivity|]. split; [reflexivity|].
  destruct (@C8_function_of_row_and_now ref_strptime) as [_ [_ [Hdiff _]]].
  destruct (Hdiff sale "2017-06-01T12:00:00" noon)
    as [now1 [now2 [V1 [V2 [H1 [H2 _]]]]]].
  - reflexivity.
  - vm_compute. reflexivity.
  - reflexivity.
  - reflexivity.
  - exists now1, now2. split; [exact V1|]. split; [exact V2|]. split; eauto.
Defined.

Lemma C9_witness :
  let sale := sale_row (PyFloat 1) (PyStr "2017-01-01T00:00:00") in
  In (SaleAmount.schema, "sale_amount") (@notebook_checks ref_strptime) /\
  sale !! "sale_amount" = Some (PyFloat 1) /\
  Forall (fun sale => checkable "sale_amount" sale = true) sample /\
  fst (count_errors SaleAmount.schema "sale_amount" (initial (fun _ => noon) sample))
  = Return tt.
Proof.
  intros sale.
  assert (Hin : In (SaleAmount.schema, "sale_amount") (@notebook_checks ref_strptime)).
  { left; reflexivity. }
  assert (Hall : Forall (fun sale => checkable "sale_amount" sale = true) sample).
  { repeat constructor. }
  split; [exact Hin|]. split; [reflexivity|]. split; [exact Hall|].
  destruct (@C9_one_warning_per_failing_row ref_strptime SaleAmount.schema
              "sale_amount" Hin) as [_ Hrun].
  destruct (Hrun (initial (fun _ => noon) sample) Hall) as [Hret _]. exact Hret.
Defined.

Lemma C10_witness :
  In (SaleAmount.schema, "sale_amount") (@notebook_checks ref_strptime) /\
  extra SaleAmount.schema = ALLOW_EXTRA /\
  Schema_call SaleAmount.schema
              (<["note" := PyStr "gift"]> (sale_row (PyFloat 500) (PyInt 7))) (blank noon)
  = (Return (<["sale_amount" := PyFloat 500]>
               (<["note" := PyStr "gift"]> (sale_row (PyFloat 500) (PyInt 7)))),
     blank noon).
Proof.
  assert (Hin : In (SaleAmount.schema, "sale_amount") (@notebook_checks ref_strptime)).
  { left; reflexivity. }
  split; [exact Hin|].
  destruct (@C10_extra_fields_never_fail ref_strptime SaleAmount.schema
              "sale_amount" Hin) as [He [_ Hpass]].
  split; [exact He|].
  destruct (Hpass (sale_row (PyFloat 500) (PyInt 7)) (PyFloat 500) (PyFloat 500)
                  (blank noon) (blank noon)) as [_ Hextra].
  - reflexivity.
  - vm_compute. reflexivity.
  - apply Hextra. discriminate.
Defined.

(* ===================================================================== *)
(** ** Whole runs, on any table *)
(* ===================================================================== *)

Section Runs.
Context `{Strptime}.

(** The loop and its trace agree, whatever the rows hold. *)
Lemma run_trace s field l st :
  In (s, field) notebook_checks ->
  for_in l (check_sale s field) st =
  let '(o, t', recs) := trace s field (clock st) (tick st) l in
  (o, mkState (clock st) t' (sales st)
              (error_count st + Z.of_nat (length recs)) (records st ++ recs)).
Proof.
  intros Hin. revert st. induction l as [|[s_id sale] l IH]; intros st.
  - cbn. unfold ret. destruct st; cbn. now rewrite Z.add_0_r, app_nil_r.
  - rewrite for_in_cons. cbn [trace].
    pose proof (schema_local s field sale st Hin) as Hloc.
    destruct (verdict s sale (clock st (tick st))) as [out|e].
    + rewrite (check_sale_pass _ _ _ _ _ _ _ Hloc), IH. reflexivity.
    + destruct e as [e'|es| | |k| ];
        try (rewrite (check_sale_other _ _ _ _ _ _ _ Hloc) by discriminate;
             cbn; destruct st; cbn; now rewrite Z.add_0_r, app_nil_r).
      destruct (sale !! field) as [v|] eqn:Hv.
      * rewrite (check_sale_fail _ _ _ _ _ _ _ _ Hloc Hv), IH.
        cbn [clock tick counted set_error_count add_record set_tick sales
             error_count records].
        destruct (trace s field (clock st) (tick st + reads s sale (clock st (tick st))) l)
          as [[o t'] recs].
        cbn [length]. f_equal. f_equal; [lia|now rewrite <- app_assoc].
      * rewrite (check_sale_fail_no_field _ _ _ _ _ _ _ Hloc Hv).
        cbn. destruct st; cbn. now rewrite Z.add_0_r, app_nil_r.
Qed.

Lemma trace_length s field c t l :
  (length (snd (trace s field c t l)) <= length l)%nat.
Proof.
  revert t. induction l as [|[s_id sale] l IH]; intros t; cbn [trace]; [cbn; lia|].
  destruct (verdict s sale (c t)) as [out|e].
  - specialize (IH (t + reads s sale (c t))%nat). cbn [length]. lia.
  - destruct e; try (cbn; lia).
    destruct (sale !! field); [|cbn; lia].
    specialize (IH (t + reads s sale (c t))%nat).
    destruct (trace s field c (t + reads s sale (c t)) l) as [[o t'] recs].
    cbn in *. lia.
Qed.

Lemma items_length (df : list row) : length (items df) = length df.
Proof. unfold items. apply length_imap. Qed.

Lemma items_fst (df : list row) :
  map fst (items df) = map Z.of_nat (seq 0 (length df)).
Proof.
  unfold items.
  assert (G : forall (g : nat -> Z) (l : list row),
             map fst (imap (fun i r => (g i, r)) l) = map g (seq 0 (length l))).
  { intros g l. revert g. induction l as [|r l IH]; intros g; [reflexivity|].
    cbn [imap length seq map fst]. f_equal.
    rewrite <- seq_shift, map_map. apply (IH (fun i => g (S i))). }
  apply G.
Qed.

Lemma trace_ids s field c t l :
  exists ids,
    map s_id_of (snd (trace s field c t l)) = map Some ids /\
    sublist ids (map fst l).
Proof.
  revert t. induction l as [|[s_id sale] l IH]; intros t; cbn [trace].
  - exists []. split; [reflexivity|constructor].
  - destruct (IH (t + reads s sale (c t))%nat) as [ids [Hids Hsub]].
    destruct (verdict s sale (c t)) as [out|e].
    + exists ids. split; [exact Hids|]. now apply sublist_cons.
    + destruct e; try (exists []; split; [reflexivity|apply sublist_nil_l]).
      destruct (sale !! field); [|exists []; split; [reflexivity|apply sublist_nil_l]].
      destruct (trace s field c (t + reads s sale (c t)) l) as [[o t'] recs].
      cbn [snd] in *. exists (s_id :: ids). split.
      * cbn. now rewrite Hids.
      * cbn [map fst]. now apply sublist_skip.
Qed.

(** The state a cell ends in, by the trace of its loop. *)
Lemma cell_trace s field st :
  In (s, field) notebook_checks ->
  count_errors s field st =
  let '(o, t', recs) := trace s field (clock st) (tick st) (items (sales st)) in
  (o, mkState (clock st) t' (sales st) (Z.of_nat (length recs)) (records st ++ recs)).
Proof.
  intros Hin. rewrite count_errors_run, (run_trace s field _ _ Hin).
  reflexivity.
Qed.

(** X1. After any of the three cells, ended normally or on an exception,
    the counter and the log agree: the cell has added exactly
    [error_count] records, all at level WARNING with the loop's message,
    and [error_count] is at most the number of rows. *)
Theorem counter_matches_log (s : Schema) (field : string) (st : state) :
  In (s, field) notebook_checks ->
  let st' := snd (count_errors s field st) in
  exists added,
    records st' = records st ++ added /\
    error_count st' = Z.of_nat (length added) /\
    (length added <= length (sales st))%nat /\
    Forall (fun r => levelname r = WARNING /\ msg r = "issue with sale: %s (%s) - %s")
           added.
Proof.
  intros Hin st'. subst st'. rewrite (cell_trace s field st Hin).
  pose proof (trace_length s field (clock st) (tick st) (items (sales st))) as Hlen.
  assert (Hlv : forall c t l,
             Forall (fun r => levelname r = WARNING /\
                              msg r = "issue with sale: %s (%s) - %s")
                    (snd (trace s field c t l))).
  { intros c t l. revert t. induction l as [|[s_id sale] l IH]; intros t; cbn [trace].
    - constructor.
    - specialize (IH (t + reads s sale (c t))%nat).
      destruct (verdict s sale (c t)) as [out|e]; [exact IH|].
      destruct e; try constructor.
      destruct (sale !! field); [|constructor].
      destruct (trace s field c (t + reads s sale (c t)) l) as [[o t'] recs].
      cbn [snd] in *. constructor; [split; reflexivity|exact IH]. }
  specialize (Hlv (clock st) (tick st) (items (sales st))).
  destruct (trace s field (clock st) (tick st) (items (sales st))) as [[o t'] recs].
  cbn [snd] in *. exists recs. rewrite items_length in Hlen.
  repeat split; [exact Hlen|exact Hlv].
Qed.

(** X2. The row ids a cell logs are positions of rows of the table, in
    ascending order and each at most once: they form a sublist of
    [0, 1, ..., n-1]. *)
Theorem logged_ids_are_row_positions (s : Schema) (field : string) (st : state) :
  In (s, field) notebook_checks ->
  exists added ids,
    records (snd (count_errors s field st)) = records st ++ added /\
    map s_id_of added = map Some ids /\
    sublist ids (map Z.of_nat (seq 0 (length (sales st)))).
Proof.
  intros Hin. rewrite (cell_trace s field st Hin).
  destruct (trace_ids s field (clock st) (tick st) (items (sales st)))
    as [ids [Hids Hsub]].
  destruct (trace s field (clock st) (tick st) (items (sales st))) as [[o t'] recs].
  cbn [snd] in *. exists recs, ids. rewrite items_fst in Hsub.
  repeat split; assumption.
Qed.

Lemma sale_amount_timeless : timeless SaleAmount.schema.
Proof.
  intros sale now now'. unfold verdict, reads. rewrite !sale_amount_call.
  destruct (sale !! "sale_amount") as [[ | | |f| | ]|]; try (split; reflexivity).
  destruct (PrimFloat.leb 2.50%float f); [destruct (PrimFloat.leb f 1450.99%float)|];
    split; reflexivity.
Qed.

Lemma date_format_timeless : timeless DateFormat.schema.
Proof.
  intros sale now now'. unfold verdict, reads. rewrite !date_format_call.
  destruct (sale !! "timestamp") as [[ | | | |s| ]|]; try (split; reflexivity).
  destruct (_strptime s default_fmt); split; reflexivity.
Qed.

Lemma trace_timeless s field c t c' t' l :
  timeless s ->
  trace s field c t l =
  (fst (fst (trace s field c' t' l)), t, snd (trace s field c' t' l)).
Proof.
  intros Ht. revert t t'. induction l as [|[s_id sale] l IH]; intros t t'; [reflexivity|].
  cbn [trace]. destruct (Ht sale (c t) (c' t')) as [Hv Hr].
  destruct (Ht sale (c' t') (c' t')) as [_ Hr'].
  rewrite Hv, Hr, Hr', !Nat.add_0_r.
  destruct (verdict s sale (c' t')) as [out|e]; [apply IH|].
  destruct e; try reflexivity.
  destruct (sale !! field); [|reflexivity].
  rewrite (IH t t').
  destruct (trace s field c' t' l) as [[o t''] recs]. reflexivity.
Qed.

(** How a cell on a timeless schema ends depends on the table alone. *)
Lemma timeless_cell s field (df : list row) :
  In (s, field) notebook_checks ->
  timeless s ->
  exists o recs,
    forall st, sales st = df ->
      count_errors s field st =
      (o, mkState (clock st) (tick st) df (Z.of_nat (length recs)) (records st ++ recs)).
Proof.
  intros Hin Ht.
  exists (fst (fst (trace s field (fun _ => noon) 0 (items df)))),
         (snd (trace s field (fun _ => noon) 0 (items df))).
  intros st Hs. rewrite (cell_trace s field st Hin), Hs.
  rewrite (trace_timeless s field (clock st) (tick st) (fun _ => noon) 0 _ Ht).
  reflexivity.
Qed.

(** X3. The sale_amount cell and the date-format cell do not depend on the
    clock or on what ran before: on two states holding the same table they
    end the same way, with the same count and the same records added, and
    they leave the clock unread. *)
Theorem sale_amount_and_format_ignore_the_clock (s : Schema) (field : string)
        (st1 st2 : state) :
  In (s, field) [(SaleAmount.schema, "sale_amount"); (DateFormat.schema, "timestamp")] ->
  sales st1 = sales st2 ->
  let r1 := count_errors s field st1 in
  let r2 := count_errors s field st2 in
  fst r1 = fst r2 /\
  error_count (snd r1) = error_count (snd r2) /\
  tick (snd r1) = tick st1 /\
  exists added,
    records (snd r1) = records st1 ++ added /\
    records (snd r2) = records st2 ++ added.
Proof.
  intros Hin Hs r1 r2. subst r1 r2.
  assert (Hc : In (s, field) notebook_checks /\ timeless s).
  { destruct Hin as [E|[E|[]]]; inversion E; subst; split.
    - left; reflexivity.
    - apply sale_amount_timeless.
    - right; left; reflexivity.
    - apply date_format_timeless. }
  destruct Hc as [Hc Ht].
  destruct (timeless_cell s field (sales st1) Hc Ht) as [o [recs Hrun]].
  rewrite (Hrun st1 eq_refl), (Hrun st2 (eq_sym Hs)). cbn.
  repeat split. exists recs. split; reflexivity.
Qed.

(** X4. Running the sale_amount cell or the date-format cell a second time
    ends the same way and leaves the same [error_count], because the cell
    starts by setting the counter to 0; the log is not reset, so the
    records of the first run are in it twice. *)
Theorem rerunning_a_cell (s : Schema) (field : string) (st : state) :
  In (s, field) [(SaleAmount.schema, "sale_amount"); (DateFormat.schema, "timestamp")] ->
  let r1 := count_errors s field st in
  let r2 := count_errors s field (snd r1) in
  fst r2 = fst r1 /\
  error_count (snd r2) = error_count (snd r1) /\
  exists added,
    error_count (snd r1) = Z.of_nat (length added) /\
    records (snd r1) = records st ++ added /\
    records (snd r2) = records st ++ added ++ added.
Proof.
  intros Hin r1 r2. subst r1 r2.
  assert (Hc : In (s, field) notebook_checks /\ timeless s).
  { destruct Hin as [E|[E|[]]]; inversion E; subst; split.
    - left; reflexivity.
    - apply sale_amount_timeless.
    - right; left; reflexivity.
    - apply date_format_timeless. }
  destruct Hc as [Hc Ht].
  destruct (timeless_cell s field (sales st) Hc Ht) as [o [recs Hrun]].
  rewrite (Hrun st eq_refl). cbn [snd fst].
  erewrite Hrun by reflexivity. cbn.
  repeat split. exists recs. repeat split. now rewrite <- app_assoc.
Qed.

Lemma checkable_timestamp sale :
  checkable "timestamp" sale = true -> exists str, sale !! "timestamp" = Some (PyStr str).
Proof.
  unfold checkable.
  destruct (sale !! "timestamp") as [[ | | | |str| ]|]; cbn; try discriminate. eauto.
Qed.

Lemma date_format_check s_id sale st :
  checkable "timestamp" sale = true ->
  exists st',
    check_sale DateFormat.schema "timestamp" (s_id, sale) st = (Return tt, st') /\
    error_count st' = (error_count st + if unparsable sale then 1 else 0)%Z /\
    tick st' = tick st /\ clock st' = clock st.
Proof.
  intros Hc. destruct (checkable_timestamp sale Hc) as [str Hv].
  pose proof (date_format_call sale st) as Hcall. rewrite Hv in Hcall.
  unfold unparsable. rewrite Hv.
  destruct (_strptime str default_fmt) as [d|].
  - rewrite (check_sale_pass _ _ _ _ _ _ _ Hcall). exists st.
    repeat split. lia.
  - rewrite (check_sale_fail _ _ _ _ _ _ _ _ Hcall Hv). eexists.
    repeat split.
Qed.

Lemma date_sanity_check s_id sale st :
  checkable "timestamp" sale = true ->
  exists st',
    check_sale DateSanity.schema "timestamp" (s_id, sale) st = (Return tt, st') /\
    error_count st' =
      (error_count st +
       if unparsable sale || future (clock st (tick st)) sale then 1 else 0)%Z /\
    tick st' = (tick st + if unparsable sale then 0 else 1)%nat /\
    clock st' = clock st.
Proof.
  intros Hc. destruct (checkable_timestamp sale Hc) as [str Hv].
  pose proof (date_sanity_call sale st) as Hcall. rewrite Hv in Hcall.
  unfold unparsable, future, parsed. rewrite Hv.
  destruct (_strptime str default_fmt) as [d|].
  - rewrite gt_not_le. cbn [orb].
    destruct (datetime.le d (clock st (tick st))).
    + rewrite (check_sale_pass _ _ _ _ _ _ _ Hcall). eexists.
      repeat split; cbn; lia.
    + rewrite (check_sale_fail _ _ _ _ _ _ _ _ Hcall Hv). eexists.
      repeat split; cbn; lia.
  - rewrite (check_sale_fail _ _ _ _ _ _ _ _ Hcall Hv). eexists.
    repeat split; cbn; lia.
Qed.

Lemma date_format_run (l : list (Z * row)) (st : state) :
  Forall (fun sale => checkable "timestamp" sale = true) (map snd l) ->
  exists st',
    for_in l (check_sale DateFormat.schema "timestamp") st = (Return tt, st') /\
    error_count st' = (error_count st + count_rows unparsable (map snd l))%Z /\
    tick st' = tick st.
Proof.
  unfold count_rows.
  revert st. induction l as [|[s_id sale] l IH]; intros st Hall.
  - exists st. repeat split. cbn. lia.
  - cbn [map snd] in Hall. inversion Hall as [|? ? Hc Hl]; subst.
    destruct (date_format_check s_id sale st Hc) as [st1 [H1 [E1 [T1 _]]]].
    destruct (IH st1 Hl) as [st' [Hrun [E' T']]].
    exists st'. rewrite for_in_cons, H1. split; [exact Hrun|].
    split; [|congruence].
    rewrite E', E1. cbn [map snd List.filter].
    destruct (unparsable sale); cbn [length]; lia.
Qed.

Lemma date_sanity_run (l : list (Z * row)) (st : state) :
  Forall (fun sale => checkable "timestamp" sale = true) (map snd l) ->
  exists st',
    for_in l (check_sale DateSanity.schema "timestamp") st = (Return tt, st') /\
    (error_count st + count_rows unparsable (map snd l) <= error_count st')%Z /\
    tick st' =
      (tick st + length (List.filter (fun sale => negb (unparsable sale)) (map snd l)))%nat /\
    ((forall n, clock st n = clock st 0) ->
     error_count st' =
       (error_count st + count_rows unparsable (map snd l)
        + count_rows (future (clock st 0)) (map snd l))%Z).
Proof.
  unfold count_rows.
  revert st. induction l as [|[s_id sale] l IH]; intros st Hall.
  - exists st. repeat split; cbn; lia.
  - cbn [map snd] in Hall. inversion Hall as [|? ? Hc Hl]; subst.
    destruct (date_sanity_check s_id sale st Hc) as [st1 [H1 [E1 [T1 C1]]]].
    destruct (IH st1 Hl) as [st' [Hrun [Hge [T' Hconst]]]].
    exists st'. rewrite for_in_cons, H1. split; [exact Hrun|]. split; [|split].
    + cbn [map snd List.filter].
      destruct (unparsable sale); cbn [length orb] in *; [lia|].
      destruct (future (clock st (tick st)) sale); lia.
    + rewrite T', T1. cbn [map snd List.filter].
      destruct (unparsable sale); cbn [negb length]; lia.
    + intros Hk. rewrite C1 in Hconst.
      rewrite (Hconst Hk), E1, (Hk (tick st)).
      cbn [map snd List.filter].
      assert (Hd : unparsable sale = true -> future (clock st 0) sale = false).
      { unfold unparsable, future, parsed.
        destruct (sale !! "timestamp") as [[ | | | |str| ]|]; try discriminate.
        destruct (_strptime str default_fmt); [discriminate|reflexivity]. }
      destruct (unparsable sale) eqn:Hu; cbn [negb orb length].
      * rewrite (Hd eq_refl). lia.
      * destruct (future (clock st 0) sale); cbn [length]; lia.
Qed.

Lemma checkable_items field (df : list row) :
  Forall (fun sale => checkable field sale = true) df ->
  Forall (fun x => checkable field (snd x) = true) (items df).
Proof.
  intros Hall.
  apply (proj1 (List.Forall_map snd (fun sale => checkable field sale = true) (items df))).
  now rewrite items_snd.
Qed.

(** X5. Over a table whose timestamps are all strings, the date-format
    cell runs to its end, counts exactly the rows whose timestamp does not
    parse under the default format, and never reads the clock. *)
Theorem format_cell_counts_unparsable_rows (st : state) :
  Forall (fun sale => checkable "timestamp" sale = true) (sales st) ->
  exists st',
    DateFormat.cell st = (Return tt, st') /\
    error_count st' = count_rows unparsable (sales st) /\
    tick st' = tick st.
Proof.
  intros Hall. unfold DateFormat.cell. rewrite count_errors_run.
  destruct (date_format_run (items (sales st)) (set_error_count 0 st)) as [st' [R [E T]]].
  - now rewrite items_snd.
  - exists st'. rewrite items_snd in E. repeat split; assumption.
Qed.

(** X6. The sanity schema is the format schema made stricter: on any row,
    an error the format schema raises is the error the sanity schema
    raises, without reading the clock, and a row the sanity schema passes
    parses and passes the format schema. So over a table whose timestamps
    are all strings the sanity cell never counts fewer errors than the
    format cell, whatever the clock reads. *)
Theorem sanity_is_stricter_than_format :
  (forall (sale : row) (st1 st2 : state),
      (forall es st', Schema_call DateFormat.schema sale st1
                      = (Raise (MultipleInvalid es), st') ->
                      Schema_call DateSanity.schema sale st2
                      = (Raise (MultipleInvalid es), st2)) /\
      (forall out st', Schema_call DateSanity.schema sale st2 = (Return out, st') ->
                       exists d,
                         parsed sale = Some d /\
                         Schema_call DateFormat.schema sale st1
                         = (Return (<["timestamp" := PyDatetime d]> sale), st1))) /\
  (forall st1 st2 : state,
      sales st1 = sales st2 ->
      Forall (fun sale => checkable "timestamp" sale = true) (sales st1) ->
      (error_count (snd (DateFormat.cell st1))
       <= error_count (snd (DateSanity.cell st2)))%Z).
Proof.
  split.
  - intros sale st1 st2. rewrite date_format_call, date_sanity_call.
    unfold parsed.
    destruct (sale !! "timestamp") as [[ | | | |str| ]|]; split;
      try (intros ? ? E; inversion E; subst; reflexivity);
      try (intros ? ? E; discriminate E).
    + intros es st' E. destruct (_strptime str default_fmt); inversion E. reflexivity.
    + intros out st' E. destruct (_strptime str default_fmt) as [d|]; [|discriminate].
      exists d. split; reflexivity.
  - intros st1 st2 Hs Hall. unfold DateFormat.cell, DateSanity.cell.
    rewrite !count_errors_run.
    destruct (date_format_run (items (sales st1)) (set_error_count 0 st1))
      as [sf [Rf [Ef _]]]; [now rewrite items_snd|].
    destruct (date_sanity_run (items (sales st2)) (set_error_count 0 st2))
      as [ss [Rs [Es _]]]; [now rewrite items_snd, <- Hs|].
    rewrite Rf, Rs. cbn [snd]. rewrite Ef. rewrite items_snd in *.
    rewrite Hs. exact Es.
Qed.

(** X7. Over a table whose timestamps are all strings the sanity cell runs
    to its end and reads the clock once for each row whose timestamp
    parses, never for a row whose timestamp does not; when the clock reads
    the same time [now] throughout, the cell counts the rows that do not
    parse plus the rows that parse to a date strictly after [now]. *)
Theorem sanity_cell_count (st : state) :
  Forall (fun sale => checkable "timestamp" sale = true) (sales st) ->
  exists st',
    DateSanity.cell st = (Return tt, st') /\
    tick st' =
      (tick st + length (List.filter (fun sale => negb (unparsable sale)) (sales st)))%nat /\
    forall now,
      (forall n, clock st n = now) ->
      error_count st' =
        (count_rows unparsable (sales st) + count_rows (future now) (sales st))%Z.
Proof.
  intros Hall. unfold DateSanity.cell. rewrite count_errors_run.
  destruct (date_sanity_run (items (sales st)) (set_error_count 0 st))
    as [st' [R [_ [T E]]]]; [now rewrite items_snd|].
  exists st'. rewrite items_snd in *. split; [exact R|]. split; [exact T|].
  intros now Hnow. cbn [clock set_error_count error_count] in E.
  rewrite E; [rewrite (Hnow 0%nat); lia|].
  intros n. now rewrite !Hnow.
Qed.

(** X8. When the first row of the table lacks the column a cell logs, the
    cell stops on it with a [KeyError] for that column: the schema reports
    the missing key, the handler cannot read the value to log, and nothing
    is logged or counted, whatever rows follow. *)
Theorem missing_column_stops_at_the_first_row (s : Schema) (field : string)
        (st : state) (sale : row) (rest : list row) :
  In (s, field) notebook_checks ->
  sales st = sale :: rest ->
  sale !! field = None ->
  fst (Schema_call s sale st) = Raise (MultipleInvalid [missing field]) /\
  count_errors s field st = (Raise (KeyError field), set_error_count 0 st).
Proof.
  intros Hin Hs Hv. destruct (checks_required s field Hin) as [Hr He].
  assert (Hcall : forall st0, Schema_call s sale st0
                              = (Raise (MultipleInvalid [missing field]), st0)).
  { intros st0. unfold Schema_call, extra_errors. rewrite Hr, Hv, He. reflexivity. }
  split; [now rewrite Hcall|].
  rewrite count_errors_run, Hs. cbn [items imap].
  now apply run_stops_without_field with [missing field].
Qed.

Lemma items_app (pre : list row) (sale : row) (post : list row) :
  exists tail,
    items (pre ++ sale :: post) = items pre ++ (Z.of_nat (length pre), sale) :: tail.
Proof.
  unfold items. rewrite imap_app. cbn [imap]. rewrite Nat.add_0_r. eauto.
Qed.

(** X9. In the two date cells a row whose [timestamp] is not a string (the
    NaN of an empty cell, a number) ends the run with a [TypeError]: when
    the rows before it all hold string timestamps, the cell stops with the
    counter, the log and the clock exactly as a run over those earlier rows
    alone leaves them, and no later row is looked at. *)
Theorem non_string_timestamp_stops_the_date_cells (s : Schema) (st : state)
        (pre : list row) (sale : row) (v : pyval) (post : list row) :
  In (s, "timestamp") [(DateFormat.schema, "timestamp"); (DateSanity.schema, "timestamp")] ->
  sales st = pre ++ sale :: post ->
  Forall (fun r => checkable "timestamp" r = true) pre ->
  sale !! "timestamp" = Some v ->
  (forall str, v <> PyStr str) ->
  exists before st',
    count_errors s "timestamp" (set_sales pre st) = (Return tt, before) /\
    count_errors s "timestamp" st = (Raise TypeError, st') /\
    error_count st' = error_count before /\
    records st' = records before /\
    tick st' = tick before.
Proof.
  intros Hin Hs Hpre Hv Hstr.
  assert (Hc : In (s, "timestamp") notebook_checks).
  { destruct Hin as [E|[E|[]]]; inversion E; subst;
      [right; left; reflexivity|right; right; left; reflexivity]. }
  assert (Hcall : forall st0, Schema_call s sale st0 = (Raise TypeError, st0)).
  { intros st0. destruct Hin as [E|[E|[]]]; inversion E; subst.
    - rewrite date_format_call, Hv.
      destruct v as [ | | | |str| ]; try reflexivity. now destruct (Hstr str).
    - rewrite date_sanity_call, Hv.
      destruct v as [ | | | |str| ]; try reflexivity. now destruct (Hstr str). }
  pose proof (checkable_items "timestamp" pre Hpre) as Hitems.
  eexists; eexists. split; [|split].
  - rewrite count_errors_run. cbn [sales set_sales].
    apply (run_checkable s "timestamp" _ _ Hc Hitems).
  - rewrite count_errors_run, Hs.
    destruct (items_app pre sale post) as [tail ->].
    rewrite (for_in_app _ _ _ _ _
               (run_checkable s "timestamp" _ (set_error_count 0 st) Hc Hitems)).
    apply run_stops_on_other_exception; [apply Hcall|discriminate].
  - repeat split.
Qed.

(** X10. What the sale_amount schema says of a rejected value: a value that
    is not a float, an integer inside the interval included, is reported as
    'expected float' and the range is not consulted; a float not at least
    2.50, which a NaN is, is reported against the minimum; a float at least
    2.50 and not at most 1450.99 against the maximum. Each time it is the
    only error, at [sale_amount], and the state is untouched. *)
Theorem sale_amount_diagnosis (sale : row) (v : pyval) (st : state) :
  sale !! "sale_amount" = Some v ->
  let fails c m :=
    Schema_call SaleAmount.schema sale st
    = (Raise (MultipleInvalid [at_key "sale_amount" c m]), st) in
  ((forall f, v <> PyFloat f) ->
     fails cTypeInvalid (Percent "expected %s" (PyStr "float"))) /\
  (forall f, v = PyFloat f -> PrimFloat.leb 2.50%float f = false ->
     fails cRangeInvalid (Percent "value must be at least %s" (PyFloat 2.50%float))) /\
  (forall f, v = PyFloat f -> PrimFloat.leb 2.50%float f = true ->
     PrimFloat.leb f 1450.99%float = false ->
     fails cRangeInvalid (Percent "value must be at most %s" (PyFloat 1450.99%float))) /\
  PrimFloat.leb 2.50%float nan = false.
Proof.
  intros Hv fails. subst fails. cbn beta. rewrite sale_amount_call, Hv.
  split; [|split; [|split]].
  - intros Hnf. destruct v as [ | | |f| | ]; try reflexivity. now destruct (Hnf f).
  - intros f -> Hlo. now rewrite Hlo.
  - intros f -> Hlo Hhi. now rewrite Hlo, Hhi.
  - reflexivity.
Qed.

(** X11. The date-format schema on a row that holds a timestamp: when it is
    a string that parses, the schema passes without reading the clock and
    the validated row holds the parsed [datetime] at [timestamp] and every
    other field as it was; when it is not a string, a [TypeError] leaves
    both date schemas, which is not a validation error. *)
Theorem format_schema_on_a_row (sale : row) (v : pyval) (st : state) :
  sale !! "timestamp" = Some v ->
  (forall str d, v = PyStr str -> _strptime str default_fmt = Some d ->
     exists out,
       Schema_call DateFormat.schema sale st = (Return out, st) /\
       out !! "timestamp" = Some (PyDatetime d) /\
       forall k, k <> "timestamp" -> out !! k = sale !! k) /\
  ((forall str, v <> PyStr str) ->
     Schema_call DateFormat.schema sale st = (Raise TypeError, st) /\
     Schema_call DateSanity.schema sale st = (Raise TypeError, st)).
Proof.
  intros Hv. rewrite date_format_call, date_sanity_call, Hv. split.
  - intros str d -> Hp. rewrite Hp. eexists. split; [reflexivity|]. split.
    + apply lookup_insert_eq.
    + intros k Hk. now apply lookup_insert_ne.
  - intros Hstr. destruct v as [ | | | |str| ]; try (split; reflexivity).
    now destruct (Hstr str).
Qed.

Lemma cmp_tuple_le_trans (x y z : list Z) :
  length x = length y -> length y = length z ->
  datetime._cmp_tuple x y <> Gt -> datetime._cmp_tuple y z <> Gt ->
  datetime._cmp_tuple x z <> Gt.
Proof.
  revert y z. induction x as [|a x IH]; intros [|b y] [|c z] Hxy Hyz;
    cbn in Hxy, Hyz; try discriminate; cbn [datetime._cmp_tuple].
  injection Hxy as Hxy. injection Hyz as Hyz.
  destruct (Z.compare_spec a b) as [Eab|Eab|Eab];
    destruct (Z.compare_spec b c) as [Ebc|Ebc|Ebc];
    destruct (Z.compare_spec a c) as [Eac|Eac|Eac];
    intros H1 H2; try congruence; try lia.
  now apply IH with y.
Qed.

Lemma le_trans (a b c : datetime.t) :
  datetime.le a b = true -> datetime.le b c = true -> datetime.le a c = true.
Proof.
  unfold datetime.le, datetime._cmp. intros Hab Hbc.
  pose proof (cmp_tuple_le_trans (datetime._getstate a) (datetime._getstate b)
                                 (datetime._getstate c) eq_refl eq_refl) as T.
  destruct (datetime._cmp_tuple (datetime._getstate a) (datetime._getstate b));
    destruct (datetime._cmp_tuple (datetime._getstate b) (datetime._getstate c));
    try discriminate;
    destruct (datetime._cmp_tuple (datetime._getstate a) (datetime._getstate c));
    try reflexivity; exfalso; apply T; congruence.
Qed.

Lemma future_later (now now' : datetime.t) (sale : row) :
  datetime.le now now' = true -> future now' sale = true -> future now sale = true.
Proof.
  unfold future. intros Hle. destruct (parsed sale) as [d|]; [|discriminate].
  rewrite !gt_not_le. intros Hf.
  destruct (datetime.le d now) eqn:Hd; [|reflexivity].
  now rewrite (le_trans d now now' Hd Hle) in Hf.
Qed.

Lemma filter_length_le {A} (p q : A -> bool) (l : list A) :
  (forall x, p x = true -> q x = true) ->
  (length (List.filter p l) <= length (List.filter q l))%nat.
Proof.
  intros Hpq. induction l as [|x l IH]; cbn; [lia|].
  destruct (p x) eqn:Hp.
  - rewrite (Hpq x Hp). cbn. lia.
  - destruct (q x); cbn; lia.
Qed.

(** X12. Time only ever helps a row in the sanity check: a row the schema
    passes when the clock reads [now] passes at every later reading, so
    that over a table whose timestamps are all strings a run under a clock
    fixed at a later time never counts more errors than a run under a clock
    fixed at an earlier one. *)
Theorem accepted_rows_stay_accepted (now now' : datetime.t) :
  datetime.le now now' = true ->
  (forall sale : row,
      (exists out, verdict DateSanity.schema sale now = Return out) ->
      exists out, verdict DateSanity.schema sale now' = Return out) /\
  (forall st st' : state,
      sales st = sales st' ->
      Forall (fun sale => checkable "timestamp" sale = true) (sales st) ->
      (forall n, clock st n = now) ->
      (forall n, clock st' n = now') ->
      (error_count (snd (DateSanity.cell st'))
       <= error_count (snd (DateSanity.cell st)))%Z).
Proof.
  intros Hle. split.
  - intros sale [out Hout]. unfold verdict in *. rewrite date_sanity_call in *.
    destruct (sale !! "timestamp") as [[ | | | |str| ]|]; try discriminate.
    destruct (_strptime str default_fmt) as [d|]; [|discriminate].
    cbn [clock tick blank] in *.
    destruct (datetime.le d now) eqn:Hd; [|discriminate].
    rewrite (le_trans d now now' Hd Hle). eauto.
  - intros st st' Hs Hall Hnow Hnow'. unfold DateSanity.cell.
    rewrite !count_errors_run.
    destruct (date_sanity_run (items (sales st)) (set_error_count 0 st))
      as [s1 [R1 [_ [_ E1]]]]; [now rewrite items_snd|].
    destruct (date_sanity_run (items (sales st')) (set_error_count 0 st'))
      as [s2 [R2 [_ [_ E2]]]]; [now rewrite items_snd, <- Hs|].
    rewrite R1, R2. cbn [snd].
    rewrite E1 by (intros n; cbn; now rewrite !Hnow).
    rewrite E2 by (intros n; cbn; now rewrite !Hnow').
    cbn [clock set_error_count error_count]. rewrite !items_snd, <- Hs, Hnow, Hnow'.
    unfold count_rows.
    pose proof (filter_length_le (future now') (future now) (sales st)
                                 (fun x => future_later now now' x Hle)).
    lia.
Qed.

End Runs.

(* ===================================================================== *)
(** ** The properties of whole runs, at concrete tables *)
(* ===================================================================== *)

Lemma X1_witness :
  In (@DateSanity.schema ref_strptime, "timestamp") (@notebook_checks ref_strptime) /\
  exists added,
    records (snd (count_errors (@DateSanity.schema ref_strptime) "timestamp"
                               (initial (fun _ => noon) sample))) = [] ++ added /\
    error_count (snd (count_errors (@DateSanity.schema ref_strptime) "timestamp"
                                   (initial (fun _ => noon) sample)))
    = Z.of_nat (length added).
Proof.
  assert (Hin : In (@DateSanity.schema ref_strptime, "timestamp")
                   (@notebook_checks ref_strptime)).
  { right; right; left; reflexivity. }
  split; [exact Hin|].
  pose proof (@counter_matches_log ref_strptime _ _ (initial (fun _ => noon) sample) Hin)
    as W.
  cbn zeta in W. destruct W as [added [H1 [H2 _]]].
  exists added. split; assumption.
Defined.

Lemma X2_witness :
  In (SaleAmount.schema, "sale_amount") (@notebook_checks ref_strptime) /\
  exists added ids,
    records (snd (count_errors SaleAmount.schema "sale_amount"
                               (initial (fun _ => noon) sample))) = [] ++ added /\
    map s_id_of added = map Some ids /\
    sublist ids [0; 1; 2; 3; 4]%Z.
Proof.
  assert (Hin : In (SaleAmount.schema, "sale_amount") (@notebook_checks ref_strptime)).
  { left; reflexivity. }
  split; [exact Hin|].
  exact (@logged_ids_are_row_positions ref_strptime _ _
           (initial (fun _ => noon) sample) Hin).
Defined.

Lemma X3_witness :
  In (@DateFormat.schema ref_strptime, "timestamp")
     [(SaleAmount.schema, "sale_amount"); (@DateFormat.schema ref_strptime, "timestamp")] /\
  sales (initial (fun _ => noon) sample) = sales (initial ticking sample) /\
  fst (@DateFormat.cell ref_strptime (initial (fun _ => noon) sample))
  = fst (@DateFormat.cell ref_strptime (initial ticking sample)).
Proof.
  assert (Hin : In (@DateFormat.schema ref_strptime, "timestamp")
                   [(SaleAmount.schema, "sale_amount");
                    (@DateFormat.schema ref_strptime, "timestamp")]).
  { right; left; reflexivity. }
  split; [exact Hin|]. split; [reflexivity|].
  pose proof (@sale_amount_and_format_ignore_the_clock ref_strptime _ _
                (initial (fun _ => noon) sample) (initial ticking sample) Hin eq_refl)
    as W.
  cbn zeta in W. destruct W as [Hsame _]. exact Hsame.
Defined.

Lemma X4_witness :
  In (SaleAmount.schema, "sale_amount")
     [(SaleAmount.schema, "sale_amount"); (@DateFormat.schema ref_strptime, "timestamp")] /\
  error_count (snd (SaleAmount.cell (snd (SaleAmount.cell (initial (fun _ => noon) sample)))))
  = error_count (snd (SaleAmount.cell (initial (fun _ => noon) sample))).
Proof.
  assert (Hin : In (SaleAmount.schema, "sale_amount")
                   [(SaleAmount.schema, "sale_amount");
                    (@DateFormat.schema ref_strptime, "timestamp")]).
  { left; reflexivity. }
  split; [exact Hin|].
  pose proof (@rerunning_a_cell ref_strptime _ _ (initial (fun _ => noon) sample) Hin)
    as W.
  cbn zeta in W. destruct W as [_ [Hsame _]]. exact Hsame.
Defined.

Lemma sample_timestamps_are_strings :
  Forall (fun sale => checkable "timestamp" sale = true) sample.
Proof. repeat constructor. Defined.

Lemma X5_witness :
  Forall (fun sale => checkable "timestamp" sale = true) sample /\
  exists st',
    @DateFormat.cell ref_strptime (initial (fun _ => noon) sample) = (Return tt, st') /\
    error_count st' = @count_rows (@unparsable ref_strptime) sample.
Proof.
  split; [exact sample_timestamps_are_strings|].
  destruct (@format_cell_counts_unparsable_rows ref_strptime
              (initial (fun _ => noon) sample) sample_timestamps_are_strings)
    as [st' [R [E _]]].
  exists st'. split; assumption.
Defined.

Lemma X6_witness :
  Forall (fun sale => checkable "timestamp" sale = true) sample /\
  (error_count (snd (@DateFormat.cell ref_strptime (initial (fun _ => noon) sample)))
   <= error_count (snd (@DateSanity.cell ref_strptime (initial ticking sample))))%Z.
Proof.
  split; [exact sample_timestamps_are_strings|].
  destruct (@sanity_is_stricter_than_format ref_strptime) as [_ Hcount].
  apply (Hcount (initial (fun _ => noon) sample) (initial ticking sample) eq_refl
                sample_timestamps_are_strings).
Defined.

Lemma X7_witness :
  Forall (fun sale => checkable "timestamp" sale = true) sample /\
  (forall n : nat, (fun _ : nat => noon) n = noon) /\
  exists st',
    @DateSanity.cell ref_strptime (initial (fun _ => noon) sample) = (Return tt, st') /\
    error_count st' =
      (count_rows (@unparsable ref_strptime) sample
       + count_rows (@future ref_strptime noon) sample)%Z.
Proof.
  split; [exact sample_timestamps_are_strings|]. split; [reflexivity|].
  destruct (@sanity_cell_count ref_strptime (initial (fun _ => noon) sample)
              sample_timestamps_are_strings) as [st' [R [_ E]]].
  exists st'. split; [exact R|]. apply E. reflexivity.
Defined.

Lemma X8_witness :
  let no_amount := {[ "timestamp" := PyStr "2017-01-01T00:00:00" ]} : row in
  let st := initial (fun _ => noon) [no_amount; no_amount] in
  In (SaleAmount.schema, "sale_amount") (@notebook_checks ref_strptime) /\
  no_amount !! "sale_amount" = None /\
  count_errors SaleAmount.schema "sale_amount" st
  = (Raise (KeyError "sale_amount"), set_error_count 0 st).
Proof.
  intros no_amount st.
  assert (Hin : In (SaleAmount.schema, "sale_amount") (@notebook_checks ref_strptime)).
  { left; reflexivity. }
  split; [exact Hin|]. split; [reflexivity|].
  destruct (@missing_column_stops_at_the_first_row ref_strptime _ _ st no_amount
              [no_amount] Hin eq_refl eq_refl) as [_ Hrun].
  exact Hrun.
Defined.

Lemma X9_witness :
  let ok := sale_row (PyFloat 500) (PyStr "2099-01-01T00:00:00") in
  let empty_ts := sale_row (PyFloat 500) (PyFloat nan) in
  let st := initial (fun _ => noon) [ok; empty_ts; ok] in
  In (@DateSanity.schema ref_strptime, "timestamp")
     [(@DateFormat.schema ref_strptime, "timestamp");
      (@DateSanity.schema ref_strptime, "timestamp")] /\
  Forall (fun r => checkable "timestamp" r = true) [ok] /\
  empty_ts !! "timestamp" = Some (PyFloat nan) /\
  exists st',
    @DateSanity.cell ref_strptime st = (Raise TypeError, st') /\
    error_count st'
    = error_count (snd (@DateSanity.cell ref_strptime (set_sales [ok] st))).
Proof.
  intros ok empty_ts st.
  assert (Hin : In (@DateSanity.schema ref_strptime, "timestamp")
                   [(@DateFormat.schema ref_strptime, "timestamp");
                    (@DateSanity.schema ref_strptime, "timestamp")]).
  { right; left; reflexivity. }
  assert (Hpre : Forall (fun r => checkable "timestamp" r = true) [ok]).
  { repeat constructor. }
  split; [exact Hin|]. split; [exact Hpre|]. split; [reflexivity|].
  destruct (@non_string_timestamp_stops_the_date_cells ref_strptime _ st [ok] empty_ts
              (PyFloat nan) [ok] Hin eq_refl Hpre eq_refl)
    as [before [st' [Hb [Hrun [Hc _]]]]].
  - discriminate.
  - exists st'. split; [exact Hrun|].
    unfold DateSanity.cell. rewrite Hb. exact Hc.
Defined.

Lemma X10_witness :
  let sale := sale_row (PyInt 500) (PyStr "2017-01-01T00:00:00") in
  sale !! "sale_amount" = Some (PyInt 500) /\
  Schema_call SaleAmount.schema sale (blank noon)
  = (Raise (MultipleInvalid
              [at_key "sale_amount" cTypeInvalid (Percent "expected %s" (PyStr "float"))]),
     blank noon).
Proof.
  intros sale. split; [reflexivity|].
  pose proof (sale_amount_diagnosis sale (PyInt 500) (blank noon) eq_refl) as W.
  cbn zeta beta in W. destruct W as [Htype _]. apply Htype. discriminate.
Defined.

Lemma X11_witness :
  let sale := sale_row (PyFloat 500) (PyStr "2017-06-01T12:00:00") in
  sale !! "timestamp" = Some (PyStr "2017-06-01T12:00:00") /\
  RefParser.parse "2017-06-01T12:00:00" default_fmt = Some noon /\
  exists out,
    Schema_call (@DateFormat.schema ref_strptime) sale (blank noon)
    = (Return out, blank noon) /\
    out !! "timestamp" = Some (PyDatetime noon).
Proof.
  intros sale. split; [reflexivity|]. split; [vm_compute; reflexivity|].
  destruct (@format_schema_on_a_row ref_strptime sale
              (PyStr "2017-06-01T12:00:00") (blank noon) eq_refl) as [Hpass _].
  destruct (Hpass "2017-06-01T12:00:00" noon eq_refl) as [out [R [L _]]].
  - vm_compute. reflexivity.
  - exists out. split; assumption.
Defined.

Lemma X12_witness :
  datetime.le noon (at_ 2100 1 1 0 0 0) = true /\
  Forall (fun sale => checkable "timestamp" sale = true) sample /\
  (error_count (snd (@DateSanity.cell ref_strptime
                       (initial (fun _ => at_ 2100 1 1 0 0 0) sample)))
   <= error_count (snd (@DateSanity.cell ref_strptime (initial (fun _ => noon) sample))))%Z.
Proof.
  split; [reflexivity|]. split; [exact sample_timestamps_are_strings|].
  destruct (@accepted_rows_stay_accepted ref_strptime noon (at_ 2100 1 1 0 0 0) eq_refl)
    as [_ Hcount].
  apply (Hcount (initial (fun _ => noon) sample)
                (initial (fun _ => at_ 2100 1 1 0 0 0) sample) eq_refl
                sample_timestamps_are_strings); reflexivity.
Defined.
